(** * Broker orders: construction, normalisation and fill reconciliation

    A shallow embedding of [sysexecution/orders/broker_orders.py].

    Python values are a small universe [pyval]; exceptions are values of
    [exn] carried in the left summand of [res]; the [order_info] dictionary
    and keyword arguments are [gmap string pyval]; methods that mutate
    [self] pass the order explicitly.  The collaborators imported from
    other modules of the repository are either fields of the class
    [base_orders] (what the normalisers compute is left open) or
    definitions whose comment starts "Modelled from the spec". *)

From Stdlib Require Import ZArith List String Ascii Bool Lia Permutation Sorted.
From Stdlib Require Import Floats.PrimFloat.
From stdpp Require Import base option list gmap strings.

Set Warnings "-register-all,-inexact-float".
Open Scope string_scope.

(** ** Python values *)

Inductive pyval : Type :=
| PyNone
| PyBool (b : bool)
| PyInt (n : Z)
| PyFloat (x : float)
| PyStr (s : string)
| PyList (l : list pyval)
| PyDatetime (t : Z)
| PyOrderType (tag : pyval)   (* an [orderType] object built from [tag] *)
| PyBuiltinList.              (* the builtin class [list] itself *)

(** ** Exceptions and results *)

Inductive exn : Type :=
| Exception (msg : string)
| KeyError (key : string)
| TypeError
| ValueError
| IndexError.

Definition res (A : Type) : Type := (exn + A)%type.

Definition ret {A} (a : A) : res A := inr a.
Definition raise {A} (e : exn) : res A := inl e.
Definition bind {A B} (m : res A) (k : A -> res B) : res B :=
  match m with
  | inl e => inl e
  | inr a => k a
  end.

Notation "'let!' x ':=' m 'in' k" := (bind m (fun x => k))
  (at level 10, x pattern, m at level 100, k at level 200).

(** The two [Exception(...)] the module raises, told apart by their message. *)
Definition ArgumentShapeError : exn :=
  Exception "brokerOrder(strategy, instrument, contractid, trade,  **kwargs) or ('strategy/instrument/contract_order_id', trade, **kwargs) ".
Definition ParseAmbiguityError : exn :=
  Exception "Not sure how to parse order".

(** [syscore.objects]: the two named result markers. *)
Inductive status : Type := success | fill_exceeds_trade.

(** [copy] of a value of the universe is the value. *)
Definition copy (v : pyval) : pyval := v.

(** [list(v)]: a list gives its elements, a string its characters; the
    other values are not iterable. *)
Definition py_list (v : pyval) : res (list pyval) :=
  match v with
  | PyList l => ret l
  | PyStr s => ret (map (fun c => PyStr (String c EmptyString)) (list_ascii_of_string s))
  | _ => raise TypeError
  end.

(** [v == []] *)
Definition py_eq_empty_list (v : pyval) : bool :=
  match v with
  | PyList [] => true
  | _ => false
  end.

(** [type(v) is float] *)
Definition type_is_float (v : pyval) : bool :=
  match v with
  | PyFloat _ => true
  | _ => false
  end.

(** [v is None] *)
Definition is_None (v : pyval) : bool :=
  match v with
  | PyNone => true
  | _ => false
  end.

(** Modelled from the spec: [syscore.genutils.none_to_object], which
    substitutes the given sentinel for [None]. *)
Definition none_to_object (v sentinel : pyval) : pyval :=
  if is_None v then sentinel else v.

(** ** Strings: [str.split] and [str.join] on a one-character separator *)

Fixpoint split_on (sep : ascii) (s : string) : list string :=
  match s with
  | EmptyString => [EmptyString]
  | String c s' =>
      if Ascii.eqb c sep then EmptyString :: split_on sep s'
      else match split_on sep s' with
           | [] => [String c EmptyString]
           | w :: ws => String c w :: ws
           end
  end.

Fixpoint join (sep : ascii) (l : list string) : string :=
  match l with
  | [] => EmptyString
  | [w] => w
  | w :: ws => w +:+ String sep (join sep ws)
  end.

Fixpoint contains (sep : ascii) (s : string) : bool :=
  match s with
  | EmptyString => false
  | String c s' => Ascii.eqb c sep || contains sep s'
  end.

(** ** Trade quantities *)

Module tradeQuantity.

(** A [tradeQuantity] is a list of signed per-leg quantities. *)
Definition t : Type := list Z.

(** Modelled from the spec: [tradeQuantity.sort_with_idx], the
    application of an index list to the sequence, entry [k] of the
    result being entry [idx_list[k]] of the original; an index out of
    range raises. *)
Fixpoint take_with_idx {A} (unsorted : list A) (idx_list : list nat) : res (list A) :=
  match idx_list with
  | [] => ret []
  | idx :: rest =>
      match unsorted !! idx with
      | None => raise IndexError
      | Some x => let! xs := take_with_idx unsorted rest in ret (x :: xs)
      end
  end.

Definition sort_with_idx (self : t) (idx_list : list nat) : res t :=
  take_with_idx self idx_list.

(** Modelled from the spec: [fill_less_than_or_equal_to_desired_trade],
    "fill magnitude per leg <= trade magnitude per leg", the legs paired
    in order. *)
Fixpoint fill_less_than_or_equal_to_desired_trade (self proposed_fill : t) : bool :=
  match proposed_fill, self with
  | x :: fs, y :: ts =>
      (Z.abs x <=? Z.abs y)%Z && fill_less_than_or_equal_to_desired_trade ts fs
  | _, _ => true
  end.

End tradeQuantity.

(** ** The tradeable object: strategy, instrument and contract dates *)

Module futuresContractStrategy.

Record t : Type := mk {
  strategy_name : string;
  instrument_code : string;
  contract_date : list string   (* one YYYYMM string per leg *)
}.

Definition as_str (v : pyval) : res string :=
  match v with
  | PyStr s => ret s
  | _ => raise TypeError
  end.

Fixpoint as_str_list (l : list pyval) : res (list string) :=
  match l with
  | [] => ret []
  | v :: l' => let! s := as_str v in let! ss := as_str_list l' in ret (s :: ss)
  end.

(** Modelled from the spec: the constructor
    [futuresContractStrategy(strategy, instrument, contract_id)]; the
    contract id is one string, its legs separated by '_', or a list of
    date strings. *)
Definition new (strategy instrument contract_id : pyval) : res t :=
  let! s := as_str strategy in
  let! i := as_str instrument in
  match contract_id with
  | PyStr c => ret (mk s i (split_on "_" c))
  | PyList l => let! dates := as_str_list l in ret (mk s i dates)
  | _ => raise TypeError
  end.

(** Modelled from the spec: [from_key], parsing
    'strategy/instrument/contract_id'. *)
Definition from_key (key : pyval) : res t :=
  let! k := as_str key in
  match split_on "/" k with
  | [strategy; instrument; contract_id_str] =>
      new (PyStr strategy) (PyStr instrument) (PyStr contract_id_str)
  | _ => raise ValueError
  end.

(** The key of given components, as the docstring of [brokerOrder]
    writes it: 'a strategy/an instrument/201003_201406'. *)
Definition key_of (strategy instrument : string) (dates : list string) : string :=
  strategy +:+ String "/" (instrument +:+ String "/" (join "_" dates)).

Fixpoint insert_idx (key : nat -> string) (i : nat) (sorted : list nat) : list nat :=
  match sorted with
  | [] => [i]
  | j :: rest =>
      if String.leb (key i) (key j) then i :: sorted
      else j :: insert_idx key i rest
  end.

(** Modelled from the spec: [sort_idx_for_contracts], the indices of
    the legs in ascending contract-date order (equal dates keep their
    order). *)
Definition sort_idx_for_contracts (self : t) : list nat :=
  let clist := contract_date self in
  foldr (insert_idx (fun k => nth k clist EmptyString)) [] (seq 0 (length clist)).

(** Modelled from the spec: [sort_contracts_with_idx], the same
    application of an index list, to the legs. *)
Definition sort_contracts_with_idx (self : t) (idx_list : list nat) : res t :=
  let! dates := tradeQuantity.take_with_idx (contract_date self) idx_list in
  ret (mk (strategy_name self) (instrument_code self) dates).

End futuresContractStrategy.

(** ** The collaborators of [sysexecution.orders.base_orders] *)

(** What the module imports from [base_orders]: the three sentinels and
    the two normalisers.  The normalisers may raise; what they compute
    is the collaborator's. *)
Class base_orders : Type := {
  no_order_id : pyval;
  no_parent : pyval;
  no_children : pyval;
  (* resolve_inputs_to_order(trade, fill, filled_price) *)
  resolve_inputs_to_order :
    pyval -> pyval -> pyval -> res (tradeQuantity.t * tradeQuantity.t * pyval);
  (* resolve_multi_leg_price_to_single_price(trade_list, price_list) *)
  resolve_multi_leg_price_to_single_price :
    tradeQuantity.t -> pyval -> res pyval
}.

(** ** [brokerOrderType] *)

Definition allowed_types : list string := ["market"; "limit"; "balance_trade"].

(** Modelled from the spec: the [orderType] constructor, which keeps the
    tag it is given. *)
Definition brokerOrderType (type_string : pyval) : pyval := PyOrderType type_string.

Definition market_order_type : pyval := brokerOrderType (PyStr "market").
Definition limit_order_type : pyval := brokerOrderType (PyStr "limit").
Definition balance_order_type : pyval := brokerOrderType (PyStr "balance_trade").

(** ** [brokerOrderKeyArguments]: the bundle resolved during construction *)

Module brokerOrderKeyArguments.

(** The dataclass; [Q] is the type of [trade] and [fill]: a raw value
    before [resolve_inputs_to_order_with_key_arguments], a
    [tradeQuantity] after it. *)
Record t {Q : Type} : Type := mk {
  tradeable_object : futuresContractStrategy.t;
  trade : Q;
  fill : Q;
  filled_price : pyval;
  leg_filled_price : pyval;
  mid_price : pyval;
  side_price : pyval;
  offside_price : pyval
}.
Arguments t : clear implicits.

End brokerOrderKeyArguments.

Section Resolution.

Context `{BO : base_orders}.

Import brokerOrderKeyArguments.

Definition calculate_prices_with_possible_legs
    (trade : tradeQuantity.t)
    (leg_filled_price mid_price side_price offside_price original_filled_price : pyval)
  : res (pyval * pyval * pyval * pyval) :=
  let! leg_filled_price :=
    if type_is_float original_filled_price then ret leg_filled_price
    else if is_None original_filled_price then ret leg_filled_price
    else if py_eq_empty_list leg_filled_price then
      let! l := py_list (copy original_filled_price) in ret (PyList l)
    else raise ParseAmbiguityError in
  let! mid_price := resolve_multi_leg_price_to_single_price trade mid_price in
  let! side_price := resolve_multi_leg_price_to_single_price trade side_price in
  let! offside_price := resolve_multi_leg_price_to_single_price trade offside_price in
  ret (leg_filled_price, mid_price, side_price, offside_price).

Definition resolve_inputs_to_order_with_key_arguments
    (self : t pyval) : res (t tradeQuantity.t) :=
  let original_filled_price := copy (filled_price self) in
  let! (resolved_trade, resolved_fill, resolved_filled_price) :=
    resolve_inputs_to_order (trade self) (fill self) (filled_price self) in
  let! (leg_filled_price, mid_price, side_price, offside_price) :=
    calculate_prices_with_possible_legs resolved_trade
      (leg_filled_price self) (mid_price self) (side_price self)
      (offside_price self) original_filled_price in
  ret (mk _ (tradeable_object self) resolved_trade resolved_fill
          resolved_filled_price leg_filled_price mid_price side_price
          offside_price).

Definition sort_inputs_by_contract_date_order
    (self : t tradeQuantity.t) : res (t tradeQuantity.t) :=
  let sort_order :=
    futuresContractStrategy.sort_idx_for_contracts (tradeable_object self) in
  let! trade := tradeQuantity.sort_with_idx (trade self) sort_order in
  let! fill := tradeQuantity.sort_with_idx (fill self) sort_order in
  let! tradeable_object :=
    futuresContractStrategy.sort_contracts_with_idx (tradeable_object self) sort_order in
  ret (mk _ tradeable_object trade fill (filled_price self)
          (leg_filled_price self) (mid_price self) (side_price self)
          (offside_price self)).

Definition split_broker_order_args
    (args : list pyval)
    (fill filled_price leg_filled_price mid_price side_price offside_price : pyval)
  : res (t pyval) :=
  let! (tradeable_object, trade) :=
    match args with
    | [key; trade] =>
        let! tradeable_object := futuresContractStrategy.from_key key in
        ret (tradeable_object, trade)
    | [strategy; instrument; contract_id; trade] =>
        let! tradeable_object :=
          futuresContractStrategy.new strategy instrument contract_id in
        ret (tradeable_object, trade)
    | _ => raise ArgumentShapeError
    end in
  ret (mk _ tradeable_object trade fill filled_price leg_filled_price
          mid_price side_price offside_price).

Definition from_broker_order_args_to_resolved_args
    (args : list pyval)
    (fill filled_price leg_filled_price mid_price side_price offside_price : pyval)
  : res (t tradeQuantity.t) :=
  let! key_arguments :=
    split_broker_order_args args fill filled_price leg_filled_price
      mid_price side_price offside_price in
  let! key_arguments := resolve_inputs_to_order_with_key_arguments key_arguments in
  sort_inputs_by_contract_date_order key_arguments.

End Resolution.

(** ** The base order *)

Module Order.

(** Modelled from the spec: the state the base class [Order] keeps,
    the canonical fields and the free-form [order_info] store. *)
Record t : Type := mk {
  tradeable_object : futuresContractStrategy.t;
  trade : tradeQuantity.t;
  fill : tradeQuantity.t;
  filled_price : pyval;
  fill_datetime : pyval;
  locked : pyval;
  order_id : pyval;
  parent : pyval;
  children : pyval;
  active : pyval;
  order_type : pyval;
  order_info : gmap string pyval
}.

(** Modelled from the spec: [Order.fill_order], the fill-application
    routine: it takes over the fill quantities, the filled price and
    the fill timestamp. *)
Definition fill_order (self : t) (fill_qty : tradeQuantity.t)
    (filled_price fill_datetime : pyval) : t :=
  mk (tradeable_object self) (trade self) fill_qty filled_price fill_datetime
     (locked self) (order_id self) (parent self) (children self)
     (active self) (order_type self) (order_info self).

(** [self.order_info[key] = v] *)
Definition order_info_set (key : string) (v : pyval) (self : t) : t :=
  mk (tradeable_object self) (trade self) (fill self) (filled_price self)
     (fill_datetime self) (locked self) (order_id self) (parent self)
     (children self) (active self) (order_type self)
     (<[key := v]> (order_info self)).

(** [self.order_info[key]] *)
Definition order_info_get (key : string) (self : t) : res pyval :=
  match order_info self !! key with
  | Some v => ret v
  | None => raise (KeyError key)
  end.

End Order.

(** ** [brokerOrder] *)

(** A keyword argument, or the default of its parameter. *)
Definition kwarg (kw : gmap string pyval) (name : string) (dflt : pyval) : pyval :=
  match kw !! name with
  | Some v => v
  | None => dflt
  end.

(** The named keyword parameters of [brokerOrder.__init__]; every other
    keyword of a call is collected by [**kwargs_ignored], but for [self],
    which the instance already binds. *)
Definition keyword_parameters : list string :=
  ["fill"; "filled_price"; "fill_datetime"; "leg_filled_price"; "locked";
   "order_id"; "parent"; "children"; "active"; "order_type"; "algo_used";
   "algo_comment"; "limit_price"; "submit_datetime"; "side_price";
   "mid_price"; "offside_price"; "roll_order"; "broker"; "broker_account";
   "broker_clientid"; "broker_permid"; "broker_tempid"; "commission";
   "manual_fill"].

(** [d.pop(key)] and [d.pop(key, dflt)] *)
Definition pop (key : string) (d : gmap string pyval) : res (pyval * gmap string pyval) :=
  match d !! key with
  | Some v => ret (v, delete key d)
  | None => raise (KeyError key)
  end.

Definition pop_default (key : string) (dflt : pyval) (d : gmap string pyval)
  : pyval * gmap string pyval :=
  (kwarg d key dflt, delete key d).

Module brokerOrder.
Section Methods.

Context `{BO : base_orders}.

(** [__init__]: the constructor call with positional arguments [args]
    and keywords [kw].  The first parameter of the signature is [self]:
    a keyword of that name is a second value for it, and binding the
    arguments raises a TypeError before the body runs. *)
Definition init (args : list pyval) (kw : gmap string pyval) : res Order.t :=
  match kw !! "self" with
  | Some _ => raise TypeError
  | None =>
  let fill := kwarg kw "fill" PyNone in
  let filled_price := kwarg kw "filled_price" PyNone in
  let fill_datetime := kwarg kw "fill_datetime" PyNone in
  let leg_filled_price := kwarg kw "leg_filled_price" (PyList []) in
  let locked := kwarg kw "locked" (PyBool false) in
  let order_id := kwarg kw "order_id" no_order_id in
  let parent := kwarg kw "parent" no_parent in
  let children := kwarg kw "children" no_children in
  let active := kwarg kw "active" (PyBool true) in
  let order_type := kwarg kw "order_type" (brokerOrderType (PyStr "market")) in
  let algo_used := kwarg kw "algo_used" (PyStr "") in
  let algo_comment := kwarg kw "algo_comment" (PyStr "") in
  let limit_price := kwarg kw "limit_price" PyNone in
  let submit_datetime := kwarg kw "submit_datetime" PyNone in
  let side_price := kwarg kw "side_price" PyNone in
  let mid_price := kwarg kw "mid_price" PyNone in
  let offside_price := kwarg kw "offside_price" PyNone in
  let roll_order := kwarg kw "roll_order" (PyBool false) in
  let broker := kwarg kw "broker" (PyStr "") in
  let broker_account := kwarg kw "broker_account" (PyStr "") in
  let broker_clientid := kwarg kw "broker_clientid" (PyStr "") in
  let broker_permid := kwarg kw "broker_permid" (PyStr "") in
  let broker_tempid := kwarg kw "broker_tempid" (PyStr "") in
  let commission := kwarg kw "commission" (PyFloat 0.0) in
  let manual_fill := kwarg kw "manual_fill" (PyBool false) in
  let! key_arguments :=
    from_broker_order_args_to_resolved_args args fill filled_price
      leg_filled_price mid_price side_price offside_price in
  let resolved_trade := brokerOrderKeyArguments.trade key_arguments in
  let resolved_fill := brokerOrderKeyArguments.fill key_arguments in
  let resolved_filled_price := brokerOrderKeyArguments.filled_price key_arguments in
  let tradeable_object := brokerOrderKeyArguments.tradeable_object key_arguments in
  let leg_filled_price := brokerOrderKeyArguments.leg_filled_price key_arguments in
  let mid_price := brokerOrderKeyArguments.mid_price key_arguments in
  let side_price := brokerOrderKeyArguments.side_price key_arguments in
  let offside_price := brokerOrderKeyArguments.offside_price key_arguments in
  let calendar_spread_order :=
    if (length resolved_trade =? 1)%nat then false else true in
  let order_info : gmap string pyval :=
    list_to_map
      [("algo_used", algo_used);
       ("submit_datetime", submit_datetime);
       ("limit_price", limit_price);
       ("manual_fill", manual_fill);
       ("calendar_spread_order", PyBool calendar_spread_order);
       ("side_price", side_price);
       ("mid_price", mid_price);
       ("offside_price", offside_price);
       ("algo_comment", algo_comment);
       ("broker", broker);
       ("broker_account", broker_account);
       ("broker_permid", broker_permid);
       ("broker_tempid", broker_tempid);
       ("broker_clientid", broker_clientid);
       ("commission", commission);
       ("roll_order", roll_order);
       ("leg_filled_price", leg_filled_price)] in
  (* super().__init__(...), modelled from the spec: the base order
     keeps the canonical fields and the order_info bag *)
  ret (Order.mk tradeable_object resolved_trade resolved_fill
         resolved_filled_price fill_datetime locked order_id parent
         children active order_type order_info)
  end.

(** *** Properties and their setters *)

Definition limit_price := Order.order_info_get "limit_price".
Definition set_limit_price (self : Order.t) (limit_price : pyval) : Order.t :=
  Order.order_info_set "limit_price" limit_price self.

Definition algo_used := Order.order_info_get "algo_used".
Definition calendar_spread_order := Order.order_info_get "calendar_spread_order".

Definition submit_datetime := Order.order_info_get "submit_datetime".
Definition set_submit_datetime (self : Order.t) (submit_datetime : pyval) : Order.t :=
  Order.order_info_set "submit_datetime" submit_datetime self.

Definition set_manual_fill (self : Order.t) (manual_fill : pyval) : Order.t :=
  Order.order_info_set "manual_fill" manual_fill self.

Definition side_price := Order.order_info_get "side_price".
Definition mid_price := Order.order_info_get "mid_price".
Definition offside_price := Order.order_info_get "offside_price".

Definition algo_comment := Order.order_info_get "algo_comment".
Definition set_algo_comment (self : Order.t) (comment : pyval) : Order.t :=
  Order.order_info_set "algo_comment" comment self.

Definition broker := Order.order_info_get "broker".
Definition broker_account := Order.order_info_get "broker_account".

Definition broker_permid := Order.order_info_get "broker_permid".
Definition set_broker_permid (self : Order.t) (permid : pyval) : Order.t :=
  Order.order_info_set "broker_permid" permid self.

Definition broker_clientid := Order.order_info_get "broker_clientid".
Definition set_broker_clientid (self : Order.t) (broker_clientid : pyval) : Order.t :=
  Order.order_info_set "broker_clientid" broker_clientid self.

Definition broker_tempid := Order.order_info_get "broker_tempid".
Definition set_broker_tempid (self : Order.t) (broker_tempid : pyval) : Order.t :=
  Order.order_info_set "broker_tempid" broker_tempid self.

Definition commission := Order.order_info_get "commission".
Definition set_commission (self : Order.t) (comm : pyval) : Order.t :=
  Order.order_info_set "commission" comm self.

Definition leg_filled_price := Order.order_info_get "leg_filled_price".

(** The setter stores the name [list], which is the builtin class, and
    not its argument:
    [self.order_info["leg_filled_price"] = list]. *)
Definition set_leg_filled_price (self : Order.t) (leg_filled_price : pyval) : Order.t :=
  Order.order_info_set "leg_filled_price" PyBuiltinList self.

(** *** [from_dict] *)

Definition from_dict (order_as_dict : gmap string pyval) : res Order.t :=
  let! (trade, d) := pop "trade" order_as_dict in
  let! (key, d) := pop "key" d in
  let! (fill, d) := pop "fill" d in
  let! (filled_price, d) := pop "filled_price" d in
  let! (fill_datetime, d) := pop "fill_datetime" d in
  let! (locked, d) := pop "locked" d in
  let! (order_id, d) := pop "order_id" d in
  let order_id := none_to_object order_id no_order_id in
  let! (parent, d) := pop "parent" d in
  let parent := none_to_object parent no_parent in
  let! (children, d) := pop "children" d in
  let children := none_to_object children no_children in
  let! (active, d) := pop "active" d in
  let (order_type, d) := pop_default "order_type" PyNone d in
  let order_type := brokerOrderType order_type in
  let order_info := d in
  init [key; trade]
    (<["fill" := fill]>
     (<["locked" := locked]>
      (<["order_id" := order_id]>
       (<["parent" := parent]>
        (<["children" := children]>
         (<["active" := active]>
          (<["filled_price" := filled_price]>
           (<["fill_datetime" := fill_datetime]>
            (<["order_type" := order_type]> order_info))))))))).

(** *** Fill reconciliation *)

(** [self.<property> = matched.<property>]: the read may raise, after
    which [self] stays as it is at that point. *)
Definition assign (read : res pyval) (write : Order.t -> pyval -> Order.t)
    (self : Order.t) (k : Order.t -> Order.t * res status) : Order.t * res status :=
  match read with
  | inl e => (self, inl e)
  | inr v => k (write self v)
  end.

(** The order after the call, and what the call returned or raised. *)
Definition add_execution_details_from_matched_broker_order
    (self matched_broker_order : Order.t) : Order.t * res status :=
  let fill_qty_okay :=
    tradeQuantity.fill_less_than_or_equal_to_desired_trade
      (Order.trade self) (Order.fill matched_broker_order) in
  if negb fill_qty_okay then (self, ret fill_exceeds_trade)
  else
    let self :=
      Order.fill_order self (Order.fill matched_broker_order)
        (Order.filled_price matched_broker_order)
        (Order.fill_datetime matched_broker_order) in
    assign (commission matched_broker_order) set_commission self (fun self =>
    assign (broker_permid matched_broker_order) set_broker_permid self (fun self =>
    assign (algo_comment matched_broker_order) set_algo_comment self (fun self =>
    assign (leg_filled_price matched_broker_order) set_leg_filled_price self (fun self =>
    (self, ret success))))).

End Methods.
End brokerOrder.

(** ** The operations that change an order after construction *)

(** The setters of the class, the base class's fill application and the
    fill reconciliation. *)
Inductive mutation : Type :=
| SetLimitPrice (limit_price : pyval)
| SetSubmitDatetime (submit_datetime : pyval)
| SetManualFill (manual_fill : pyval)
| SetAlgoComment (comment : pyval)
| SetBrokerPermid (permid : pyval)
| SetBrokerClientid (broker_clientid : pyval)
| SetBrokerTempid (broker_tempid : pyval)
| SetCommission (comm : pyval)
| SetLegFilledPrice (leg_filled_price : pyval)
| FillOrder (fill_qty : tradeQuantity.t) (filled_price fill_datetime : pyval)
| AddExecutionDetails (matched_broker_order : Order.t).

Definition mutate (self : Order.t) (m : mutation) : Order.t :=
  match m with
  | SetLimitPrice v => brokerOrder.set_limit_price self v
  | SetSubmitDatetime v => brokerOrder.set_submit_datetime self v
  | SetManualFill v => brokerOrder.set_manual_fill self v
  | SetAlgoComment v => brokerOrder.set_algo_comment self v
  | SetBrokerPermid v => brokerOrder.set_broker_permid self v
  | SetBrokerClientid v => brokerOrder.set_broker_clientid self v
  | SetBrokerTempid v => brokerOrder.set_broker_tempid self v
  | SetCommission v => brokerOrder.set_commission self v
  | SetLegFilledPrice v => brokerOrder.set_leg_filled_price self v
  | FillOrder q p d => Order.fill_order self q p d
  | AddExecutionDetails matched =>
      fst (brokerOrder.add_execution_details_from_matched_broker_order self matched)
  end.

(** What no later operation touches: the flag's entry and the trade. *)
Definition same_flag (o o' : Order.t) : Prop :=
  Order.order_info o' !! "calendar_spread_order"
  = Order.order_info o !! "calendar_spread_order"
  /\ Order.trade o' = Order.trade o.

(** Ascending order of contract-date strings. *)
Definition date_le (a b : string) : Prop := String.leb a b = true.

(** The leg list of a bundle. *)
Definition legs {Q : Type} (ka : brokerOrderKeyArguments.t Q) : list string :=
  futuresContractStrategy.contract_date (brokerOrderKeyArguments.tradeable_object ka).

(** ** An instance of the collaborators, for evaluating calls *)

Fixpoint as_quantities (l : list pyval) : res (list Z) :=
  match l with
  | [] => ret []
  | PyInt n :: l' => let! ns := as_quantities l' in ret (n :: ns)
  | _ :: _ => raise TypeError
  end.

(** Modelled from the spec: the coercion of a trade or fill "into the
    canonical per-leg quantity sequence type": one integer is a one-leg
    sequence, a list of integers is the sequence. *)
Definition as_tradeQuantity (v : pyval) : res tradeQuantity.t :=
  match v with
  | PyInt n => ret [n]
  | PyList l => as_quantities l
  | _ => raise TypeError
  end.

(** Modelled from the spec: the reducer of a per-leg price list to one
    price; "a value already scalar passes through unchanged", the list of
    a one-leg order gives its only price.  How several legs are weighted
    is the collaborator's and is not evaluated here. *)
Definition collapse_price (trade_list : tradeQuantity.t) (price_list : pyval) : res pyval :=
  match price_list with
  | PyNone => ret PyNone
  | PyFloat x => ret (PyFloat x)
  | PyList [p] => ret p
  | _ => raise (Exception "price weighting of several legs")
  end.

(** Modelled from the spec: the trade/fill normaliser; an absent fill is
    "no fill yet", of the length of the trade (Invariant I1). *)
Definition normalise_inputs (trade fill filled_price : pyval)
  : res (tradeQuantity.t * tradeQuantity.t * pyval) :=
  let! resolved_trade := as_tradeQuantity trade in
  let! resolved_fill :=
    if is_None fill then ret (map (fun _ => 0%Z) resolved_trade)
    else as_tradeQuantity fill in
  let! resolved_filled_price := collapse_price resolved_trade filled_price in
  ret (resolved_trade, resolved_fill, resolved_filled_price).

(** Modelled from the spec: the sentinels "no id", "no parent" and
    "no children". *)
Definition spec_base_orders : base_orders := {|
  no_order_id := PyStr "no id";
  no_parent := PyStr "no parent";
  no_children := PyStr "no children";
  resolve_inputs_to_order := normalise_inputs;
  resolve_multi_leg_price_to_single_price := collapse_price
|}.

(** ** Concrete calls and orders *)

Definition key_201003 : pyval := PyStr "a strategy/an instrument/201003".

(** The order [brokerOrder('a strategy/an instrument/201003', trade, ...)]
    builds under [spec_base_orders], the keywords below given and the
    others left at their defaults. *)
Definition one_leg_order (trade fill : tradeQuantity.t)
    (filled_price fill_datetime commission broker_permid algo_comment
     leg_filled_price : pyval) : Order.t :=
  Order.mk
    (futuresContractStrategy.mk "a strategy" "an instrument" ["201003"])
    trade fill filled_price fill_datetime (PyBool false)
    (PyStr "no id") (PyStr "no parent") (PyStr "no children") (PyBool true)
    (PyOrderType (PyStr "market"))
    (list_to_map
       [("algo_used", PyStr "");
        ("submit_datetime", PyNone);
        ("limit_price", PyNone);
        ("manual_fill", PyBool false);
        ("calendar_spread_order", PyBool false);
        ("side_price", PyNone);
        ("mid_price", PyNone);
        ("offside_price", PyNone);
        ("algo_comment", algo_comment);
        ("broker", PyStr "");
        ("broker_account", PyStr "");
        ("broker_permid", broker_permid);
        ("broker_tempid", PyStr "");
        ("broker_clientid", PyStr "");
        ("commission", commission);
        ("roll_order", PyBool false);
        ("leg_filled_price", leg_filled_price)]).

(** Order A: trade [10], nothing filled. *)
Definition kw_A : gmap string pyval := {[ "fill" := PyList [PyInt 0] ]}.
Definition order_A : Order.t :=
  one_leg_order [10%Z] [0%Z] PyNone PyNone (PyFloat 0.0) (PyStr "") (PyStr "") (PyList []).

(** The matched order of the acceptance case: fill [10] at 101.5,
    commission 2.3. *)
Definition kw_matched : gmap string pyval :=
  list_to_map
    [("fill", PyList [PyInt 10]);
     ("filled_price", PyFloat 101.5);
     ("fill_datetime", PyDatetime 1700000000);
     ("commission", PyFloat 2.3);
     ("broker_permid", PyStr "permid 7");
     ("algo_comment", PyStr "Passive");
     ("leg_filled_price", PyList [PyFloat 101.5])].
Definition order_matched : Order.t :=
  one_leg_order [10%Z] [10%Z] (PyFloat 101.5) (PyDatetime 1700000000)
    (PyFloat 2.3) (PyStr "permid 7") (PyStr "Passive") (PyList [PyFloat 101.5]).

(** The matched order of the rejection case: fill [15] against trade [10]. *)
Definition order_overfilled : Order.t :=
  one_leg_order [15%Z] [15%Z] (PyFloat 101.5) (PyDatetime 1700000000)
    (PyFloat 2.3) (PyStr "permid 7") (PyStr "Passive") (PyList [PyFloat 101.5]).

(** A legacy call: the filled price is the per-leg list [101.5] and no
    leg_filled_price is given. *)
Definition kw_legacy : gmap string pyval :=
  {[ "filled_price" := PyList [PyFloat 101.5] ]}.
Definition order_legacy : Order.t :=
  one_leg_order [10%Z] [0%Z] (PyFloat 101.5) PyNone (PyFloat 0.0) (PyStr "")
    (PyStr "") (PyList [PyFloat 101.5]).

(** A call with both a per-leg filled price and a leg_filled_price. *)
Definition kw_ambiguous : gmap string pyval :=
  {[ "filled_price" := PyList [PyFloat 101.5];
     "leg_filled_price" := PyList [PyFloat 101.5] ]}.


(** A persisted order: the canonical fields, with None for the order id,
    the parent and the children, and entries of the order_info bag. *)
Definition dict_A : gmap string pyval :=
  list_to_map
    [("key", key_201003);
     ("trade", PyList [PyInt 10]);
     ("fill", PyList [PyInt 0]);
     ("filled_price", PyNone);
     ("fill_datetime", PyNone);
     ("locked", PyBool false);
     ("order_id", PyNone);
     ("parent", PyNone);
     ("children", PyNone);
     ("active", PyBool true);
     ("order_type", PyStr "market");
     ("calendar_spread_order", PyBool false);
     ("commission", PyFloat 2.3);
     ("algo_comment", PyStr "Passive")].

(** A two-leg spread whose contract dates are given out of order. *)
Definition args_spread : list pyval :=
  [PyStr "a strategy"; PyStr "an instrument";
   PyList [PyStr "201406"; PyStr "201003"]; PyList [PyInt 6; PyInt (-6)]].
Definition kw_spread : gmap string pyval :=
  {[ "fill" := PyList [PyInt 1; PyInt (-2)] ]}.


(** ** The factory from a contract order *)

Module contractOrder.

(** What [create_new_broker_order_from_contract_order] reads of a
    contract order: its key, trade, order id, algo, roll flag and
    manual-fill flag. *)
Record t : Type := mk {
  key : pyval;
  trade : pyval;
  order_id : pyval;
  algo_to_use : pyval;
  roll_order : pyval;
  manual_fill : pyval
}.

End contractOrder.

Section Factory.

Context `{BO : base_orders}.

(** The keyword parameters of the factory are given in full; a caller
    that omits one passes its default ([brokerOrderType('market')], None
    for the prices and the submit time, the empty string for the rest). *)
Definition create_new_broker_order_from_contract_order
    (contract_order : contractOrder.t)
    (order_type limit_price submit_datetime side_price mid_price offside_price
     algo_comment broker broker_account broker_clientid broker_permid
     broker_tempid : pyval) : res Order.t :=
  brokerOrder.init
    [contractOrder.key contract_order; contractOrder.trade contract_order]
    (list_to_map
       [("parent", contractOrder.order_id contract_order);
        ("algo_used", contractOrder.algo_to_use contract_order);
        ("order_type", order_type);
        ("limit_price", limit_price);
        ("side_price", side_price);
        ("offside_price", offside_price);
        ("mid_price", mid_price);
        ("broker", broker);
        ("broker_account", broker_account);
        ("broker_clientid", broker_clientid);
        ("submit_datetime", submit_datetime);
        ("algo_comment", algo_comment);
        ("broker_permid", broker_permid);
        ("broker_tempid", broker_tempid);
        ("roll_order", contractOrder.roll_order contract_order);
        ("manual_fill", contractOrder.manual_fill contract_order)]).

End Factory.

(** ** Key sets *)

(** The keys of the [order_info] dictionary [__init__] builds. *)
Definition order_info_keys : list string :=
  ["algo_used"; "submit_datetime"; "limit_price"; "manual_fill";
   "calendar_spread_order"; "side_price"; "mid_price"; "offside_price";
   "algo_comment"; "broker"; "broker_account"; "broker_permid";
   "broker_tempid"; "broker_clientid"; "commission"; "roll_order";
   "leg_filled_price"].

(** The keys [from_dict] pops without a default, in the order of the pops. *)
Definition required_keys : list string :=
  ["trade"; "key"; "fill"; "filled_price"; "fill_datetime"; "locked";
   "order_id"; "parent"; "children"; "active"].

(** The [order_info] entries the fill reconciliation assigns. *)
Definition reconciled_keys : list string :=
  ["commission"; "broker_permid"; "algo_comment"; "leg_filled_price"].

(** Two orders that differ at most in what the reconciliation writes:
    the fill, the filled price, the fill timestamp and the reconciled
    entries of [order_info]. *)
Definition reconcile_frame (o o' : Order.t) : Prop :=
  Order.tradeable_object o' = Order.tradeable_object o
  /\ Order.trade o' = Order.trade o
  /\ Order.locked o' = Order.locked o
  /\ Order.order_id o' = Order.order_id o
  /\ Order.parent o' = Order.parent o
  /\ Order.children o' = Order.children o
  /\ Order.active o' = Order.active o
  /\ Order.order_type o' = Order.order_type o
  /\ forall key, key ∉ reconciled_keys ->
       Order.order_info o' !! key = Order.order_info o !! key.

(** A contract order and the broker order the factory builds from it
    under [spec_base_orders]. *)
Definition contract_order_7 : contractOrder.t :=
  contractOrder.mk key_201003 (PyList [PyInt 10]) (PyInt 7) (PyStr "market algo")
    (PyBool true) (PyBool false).

(** A call whose filled price is the integer 101. *)
Definition kw_integer_price : gmap string pyval :=
  {[ "filled_price" := PyInt 101 ]}.

(** The resolved bundle of a two-leg spread whose dates are out of order. *)
Definition bundle_spread : brokerOrderKeyArguments.t tradeQuantity.t :=
  brokerOrderKeyArguments.mk _
    (futuresContractStrategy.mk "a strategy" "an instrument" ["201406"; "201003"])
    [6%Z; (-6)%Z] [1%Z; (-2)%Z] PyNone (PyList []) PyNone PyNone PyNone.

(** * Properties *)

(** ** Results and exceptions *)

Lemma bind_inr {A B} (m : res A) (k : A -> res B) (b : B) :
  bind m k = inr b -> exists a, m = inr a /\ k a = inr b.
Proof. destruct m as [e | a]; simpl; [discriminate | eauto]. Qed.

Lemma bind_inl {A B} (e : exn) (k : A -> res B) : bind (inl e) k = inl e.
Proof. reflexivity. Qed.

Lemma ArgumentShape_not_ParseAmbiguity : ArgumentShapeError <> ParseAmbiguityError.
Proof. discriminate. Qed.

(** ** Argument shapes *)

Section ArgumentShape.

Context `{BO : base_orders}.

Lemma split_wrong_arity args f fp lfp mp sp op :
  length args <> 2%nat -> length args <> 4%nat ->
  split_broker_order_args args f fp lfp mp sp op = raise ArgumentShapeError.
Proof.
  intros H2 H4. unfold split_broker_order_args.
  destruct args as [| a0 [| a1 [| a2 [| a3 [| a4 rest]]]]]; simpl in *;
    try reflexivity; congruence.
Qed.

(** C9: a construction call whose number of positional arguments is
    neither 2 nor 4 raises the argument-shape exception, from the
    splitter through the whole constructor, so that the caller receives
    the exception and no order.  The call is one whose arguments bind:
    it has no keyword named self, which would raise a TypeError before
    the constructor runs (and return no order either). *)
Theorem wrong_arity_raises_ArgumentShapeError
    (args : list pyval) (kw : gmap string pyval) :
  length args <> 2%nat -> length args <> 4%nat ->
  kw !! "self" = None ->
  (forall f fp lfp mp sp op,
     split_broker_order_args args f fp lfp mp sp op = raise ArgumentShapeError)
  /\ brokerOrder.init args kw = raise ArgumentShapeError
  /\ (forall order, brokerOrder.init args kw <> inr order).
Proof.
  intros H2 H4 Hself.
  assert (Hinit : brokerOrder.init args kw = raise ArgumentShapeError).
  { unfold brokerOrder.init, from_broker_order_args_to_resolved_args.
    rewrite Hself, split_wrong_arity by assumption. reflexivity. }
  split; [intros; by apply split_wrong_arity |].
  split; [exact Hinit |].
  intros order Heq. rewrite Hinit in Heq. discriminate.
Qed.

End ArgumentShape.

Lemma wrong_arity_witness :
  (length [PyStr "a strategy"; PyStr "an instrument"; PyInt 6] <> 2%nat
   /\ length [PyStr "a strategy"; PyStr "an instrument"; PyInt 6] <> 4%nat
   /\ (∅ : gmap string pyval) !! "self" = None)
  /\ brokerOrder.init (BO := spec_base_orders)
       [PyStr "a strategy"; PyStr "an instrument"; PyInt 6] ∅
     = raise ArgumentShapeError.
Proof.
  split; [repeat split; simpl; lia |].
  apply (wrong_arity_raises_ArgumentShapeError
           [PyStr "a strategy"; PyStr "an instrument"; PyInt 6] ∅);
    [simpl; lia | simpl; lia | reflexivity].
Defined.

(** ** Fill reconciliation *)

Lemma fill_check_false_of_excess (trade fill : tradeQuantity.t) (i : nat) (f q : Z) :
  fill !! i = Some f -> trade !! i = Some q -> (Z.abs q < Z.abs f)%Z ->
  tradeQuantity.fill_less_than_or_equal_to_desired_trade trade fill = false.
Proof.
  revert trade i. induction fill as [| x fs IH]; intros trade i Hf Hq Hlt.
  - destruct i; discriminate.
  - destruct trade as [| y ts]; [destruct i; discriminate |].
    simpl. destruct i as [| i]; simpl in Hf, Hq.
    + injection Hf as ->. injection Hq as ->.
      apply andb_false_intro1. apply Z.leb_gt. exact Hlt.
    + apply andb_false_intro2. eapply IH; eassumption.
Qed.

(** C2: when the matched order's fill exceeds the order's trade in
    magnitude on some leg, the call returns the [fill_exceeds_trade]
    marker, raising nothing, and the order after the call is the order
    before it: fill, filled price, fill timestamp, commission, broker
    permanent id, algo comment and leg_filled_price keep their values. *)
Theorem overfill_returns_fill_exceeds_trade_unchanged
    (self matched_broker_order : Order.t) (i : nat) (f q : Z) :
  Order.fill matched_broker_order !! i = Some f ->
  Order.trade self !! i = Some q ->
  (Z.abs q < Z.abs f)%Z ->
  let after :=
    fst (brokerOrder.add_execution_details_from_matched_broker_order
           self matched_broker_order) in
  brokerOrder.add_execution_details_from_matched_broker_order self matched_broker_order
    = (self, ret fill_exceeds_trade)
  /\ after = self
  /\ Order.fill after = Order.fill self
  /\ Order.filled_price after = Order.filled_price self
  /\ Order.fill_datetime after = Order.fill_datetime self
  /\ brokerOrder.commission after = brokerOrder.commission self
  /\ brokerOrder.broker_permid after = brokerOrder.broker_permid self
  /\ brokerOrder.algo_comment after = brokerOrder.algo_comment self
  /\ brokerOrder.leg_filled_price after = brokerOrder.leg_filled_price self.
Proof.
  intros Hf Hq Hlt after.
  assert (Hcall :
    brokerOrder.add_execution_details_from_matched_broker_order self matched_broker_order
    = (self, ret fill_exceeds_trade)).
  { unfold brokerOrder.add_execution_details_from_matched_broker_order.
    rewrite (fill_check_false_of_excess _ _ i f q Hf Hq Hlt). reflexivity. }
  assert (Hafter : after = self) by (unfold after; rewrite Hcall; reflexivity).
  rewrite Hafter. repeat split; exact Hcall.
Qed.

Lemma overfill_witness :
  (Order.fill order_overfilled !! 0%nat = Some 15%Z
   /\ Order.trade order_A !! 0%nat = Some 10%Z
   /\ (Z.abs 10 < Z.abs 15)%Z)
  /\ brokerOrder.add_execution_details_from_matched_broker_order order_A order_overfilled
     = (order_A, ret fill_exceeds_trade)
  /\ Order.fill
       (fst (brokerOrder.add_execution_details_from_matched_broker_order
               order_A order_overfilled)) = [0%Z].
Proof.
  split; [repeat split; simpl; lia |].
  destruct (overfill_returns_fill_exceeds_trade_unchanged
              order_A order_overfilled 0 15 10) as (Hcall & _ & Hfill & _);
    [reflexivity | reflexivity | simpl; lia |].
  split; [exact Hcall | exact Hfill].
Defined.

(** The orders of the examples are what the constructor builds. *)
Example order_A_constructed :
  brokerOrder.init (BO := spec_base_orders) [key_201003; PyInt 10] kw_A = inr order_A.
Proof. vm_compute. reflexivity. Qed.

Example order_matched_constructed :
  brokerOrder.init (BO := spec_base_orders) [key_201003; PyInt 10] kw_matched
  = inr order_matched.
Proof. vm_compute. reflexivity. Qed.

Example order_overfilled_constructed :
  brokerOrder.init (BO := spec_base_orders) [key_201003; PyInt 15]
    (<["fill" := PyList [PyInt 15]]> kw_matched)
  = inr order_overfilled.
Proof. vm_compute. reflexivity. Qed.

(** On the accepting path the fill, the filled price and the fill
    timestamp are the matched order's, commission, permanent id and algo
    comment are copied, and the leg_filled_price entry holds the builtin
    class [list], whatever the matched order's leg prices are. *)
Lemma accepted_fill_applied (self matched : Order.t) (c p a l : pyval) :
  tradeQuantity.fill_less_than_or_equal_to_desired_trade
    (Order.trade self) (Order.fill matched) = true ->
  brokerOrder.commission matched = ret c ->
  brokerOrder.broker_permid matched = ret p ->
  brokerOrder.algo_comment matched = ret a ->
  brokerOrder.leg_filled_price matched = ret l ->
  let r := brokerOrder.add_execution_details_from_matched_broker_order self matched in
  snd r = ret success
  /\ Order.fill (fst r) = Order.fill matched
  /\ Order.filled_price (fst r) = Order.filled_price matched
  /\ Order.fill_datetime (fst r) = Order.fill_datetime matched
  /\ brokerOrder.commission (fst r) = ret c
  /\ brokerOrder.broker_permid (fst r) = ret p
  /\ brokerOrder.algo_comment (fst r) = ret a
  /\ brokerOrder.leg_filled_price (fst r) = ret PyBuiltinList.
Proof.
  intros Hok Hc Hp Ha Hl r. subst r.
  unfold brokerOrder.add_execution_details_from_matched_broker_order.
  rewrite Hok, Hc, Hp, Ha, Hl. simpl.
  unfold brokerOrder.commission, brokerOrder.broker_permid,
    brokerOrder.algo_comment, brokerOrder.leg_filled_price,
    Order.order_info_get. simpl.
  repeat split; by simplify_map_eq.
Qed.

(** C1 (the code departs from the claim): order A, trade [10] and fill
    [0], is reconciled with a matched order of fill [10], price 101.5,
    commission 2.3 and leg_filled_price [101.5].  The call returns
    [success] and copies fill, filled price, fill timestamp, commission,
    permanent id and algo comment; the order's leg_filled_price is then
    the builtin class [list], not the matched order's [101.5]. *)
Theorem reconcile_leg_filled_price_is_builtin_list :
  let r := brokerOrder.add_execution_details_from_matched_broker_order
             order_A order_matched in
  tradeQuantity.fill_less_than_or_equal_to_desired_trade
    (Order.trade order_A) (Order.fill order_matched) = true
  /\ snd r = ret success
  /\ Order.fill (fst r) = [10%Z]
  /\ Order.filled_price (fst r) = PyFloat 101.5
  /\ Order.fill_datetime (fst r) = PyDatetime 1700000000
  /\ brokerOrder.commission (fst r) = ret (PyFloat 2.3)
  /\ brokerOrder.broker_permid (fst r) = ret (PyStr "permid 7")
  /\ brokerOrder.algo_comment (fst r) = ret (PyStr "Passive")
  /\ brokerOrder.leg_filled_price order_matched = ret (PyList [PyFloat 101.5])
  /\ brokerOrder.leg_filled_price (fst r) = ret PyBuiltinList
  /\ brokerOrder.leg_filled_price (fst r) <> brokerOrder.leg_filled_price order_matched.
Proof.
  vm_compute. repeat split; discriminate.
Qed.

(** ** The calendar-spread flag *)

Lemma same_flag_refl o : same_flag o o.
Proof. by split. Qed.

Lemma same_flag_trans o1 o2 o3 : same_flag o1 o2 -> same_flag o2 o3 -> same_flag o1 o3.
Proof. intros [H1 H2] [H3 H4]. split; congruence. Qed.

Lemma same_flag_set key v o :
  key <> "calendar_spread_order" -> same_flag o (Order.order_info_set key v o).
Proof.
  intros Hne. split; [| reflexivity].
  unfold Order.order_info_set. simpl. by rewrite lookup_insert_ne.
Qed.

Lemma same_flag_fill_order o q p d : same_flag o (Order.fill_order o q p d).
Proof. by split. Qed.

Lemma same_flag_assign read write self0 self k :
  same_flag self0 self ->
  (forall o v, same_flag o (write o v)) ->
  (forall o, same_flag self0 o -> same_flag self0 (fst (k o))) ->
  same_flag self0 (fst (brokerOrder.assign read write self k)).
Proof.
  intros Hself Hwrite Hk. unfold brokerOrder.assign.
  destruct read as [e | v]; simpl; [exact Hself |].
  apply Hk. eapply same_flag_trans; [exact Hself | apply Hwrite].
Qed.

Lemma same_flag_add_execution_details self matched :
  same_flag self
    (fst (brokerOrder.add_execution_details_from_matched_broker_order self matched)).
Proof.
  unfold brokerOrder.add_execution_details_from_matched_broker_order.
  destruct (negb _); simpl; [apply same_flag_refl |].
  repeat (apply same_flag_assign;
          [ | intros; by apply same_flag_set | intros ? ?]);
    try apply same_flag_fill_order; simpl; assumption.
Qed.

Lemma same_flag_mutate o m : same_flag o (mutate o m).
Proof.
  destruct m; simpl;
    try (by apply same_flag_set);
    [apply same_flag_fill_order | apply same_flag_add_execution_details].
Qed.

Lemma same_flag_mutations ms : forall o, same_flag o (foldl mutate o ms).
Proof.
  induction ms as [| m ms IH]; intros o; simpl; [apply same_flag_refl |].
  eapply same_flag_trans; [apply same_flag_mutate | apply IH].
Qed.

Section CalendarSpread.

Context `{BO : base_orders}.

Lemma init_calendar_spread_order args kw order :
  brokerOrder.init args kw = inr order ->
  brokerOrder.calendar_spread_order order
  = ret (PyBool (negb (length (Order.trade order) =? 1)%nat)).
Proof.
  unfold brokerOrder.init. intros H.
  destruct (kw !! "self"); [discriminate |].
  apply bind_inr in H as (ka & _ & H). injection H as <-.
  unfold brokerOrder.calendar_spread_order, Order.order_info_get. simpl.
  by destruct (length _ =? 1)%nat.
Qed.

(** C4: the order a construction call returns carries
    calendar_spread_order = (len(trade) != 1), false for one leg and
    true for more; the flag is written by the constructor only: after
    any sequence of the class's setters, fill applications and
    reconciliations the flag reads as it did after construction, and
    still agrees with the trade. *)
Theorem calendar_spread_order_fixed_at_construction
    (args : list pyval) (kw : gmap string pyval) (order : Order.t) :
  brokerOrder.init args kw = inr order ->
  brokerOrder.calendar_spread_order order
    = ret (PyBool (negb (length (Order.trade order) =? 1)%nat))
  /\ (length (Order.trade order) = 1%nat ->
      brokerOrder.calendar_spread_order order = ret (PyBool false))
  /\ (length (Order.trade order) > 1 ->
      brokerOrder.calendar_spread_order order = ret (PyBool true))
  /\ forall ms : list mutation,
      let later := foldl mutate order ms in
      brokerOrder.calendar_spread_order later
        = brokerOrder.calendar_spread_order order
      /\ brokerOrder.calendar_spread_order later
        = ret (PyBool (negb (length (Order.trade later) =? 1)%nat)).
Proof.
  intros Hinit. pose proof (init_calendar_spread_order _ _ _ Hinit) as Hflag.
  split; [exact Hflag |].
  split; [intros H1; rewrite Hflag, H1; reflexivity |].
  split.
  { intros Hgt. rewrite Hflag.
    destruct (Nat.eqb_spec (length (Order.trade order)) 1); [lia | reflexivity]. }
  intros ms later. destruct (same_flag_mutations ms order) as [Hinfo Htrade].
  assert (Hsame : brokerOrder.calendar_spread_order later
                  = brokerOrder.calendar_spread_order order).
  { unfold brokerOrder.calendar_spread_order, Order.order_info_get.
    fold later in Hinfo. by rewrite Hinfo. }
  split; [exact Hsame |].
  rewrite Hsame, Hflag. fold later in Htrade. by rewrite Htrade.
Qed.

End CalendarSpread.

Lemma calendar_spread_witness :
  brokerOrder.init (BO := spec_base_orders) [key_201003; PyInt 10] kw_A = inr order_A
  /\ brokerOrder.calendar_spread_order order_A = ret (PyBool false)
  /\ brokerOrder.calendar_spread_order
       (foldl mutate order_A
          [SetCommission (PyFloat 2.3); AddExecutionDetails order_matched;
           SetLegFilledPrice (PyList [PyFloat 101.5])])
     = ret (PyBool false).
Proof.
  assert (H : brokerOrder.init (BO := spec_base_orders) [key_201003; PyInt 10] kw_A
              = inr order_A) by (vm_compute; reflexivity).
  split; [exact H |].
  destruct (calendar_spread_order_fixed_at_construction
              (BO := spec_base_orders) _ _ _ H) as (_ & H1 & _ & Hlater).
  split; [apply H1; reflexivity |].
  destruct (Hlater [SetCommission (PyFloat 2.3); AddExecutionDetails order_matched;
                    SetLegFilledPrice (PyList [PyFloat 101.5])]) as [Hsame _].
  rewrite Hsame. apply H1. reflexivity.
Defined.

Example two_leg_order_is_calendar_spread :
  exists order,
    brokerOrder.init (BO := spec_base_orders)
      [PyStr "a strategy"; PyStr "an instrument";
       PyList [PyStr "201003"; PyStr "201406"]; PyList [PyInt 6; PyInt (-6)]] ∅
    = inr order
    /\ brokerOrder.calendar_spread_order order = ret (PyBool true).
Proof. eexists. split; vm_compute; reflexivity. Qed.

(** ** Keywords outside the parameters *)

Lemma kwarg_union_ignored (extra kw : gmap string pyval) (name : string) (dflt : pyval) :
  extra !! name = None -> kwarg (extra ∪ kw) name dflt = kwarg kw name dflt.
Proof. intros H. unfold kwarg. by rewrite lookup_union_r. Qed.

Section IgnoredKeywords.

Context `{BO : base_orders}.

(** C10, as the code has it: keywords whose names are not parameters of
    the constructor, and are not [self], are collected and never read:
    the call with them returns what the call without them returns, the
    same order in every field, and an error only where the call without
    them has that error. *)
Theorem unrecognised_keywords_are_ignored
    (args : list pyval) (kw extra : gmap string pyval) :
  (forall name, name ∈ keyword_parameters -> extra !! name = None) ->
  extra !! "self" = None ->
  brokerOrder.init args (extra ∪ kw) = brokerOrder.init args kw
  /\ (forall order, brokerOrder.init args kw = inr order ->
                    brokerOrder.init args (extra ∪ kw) = inr order).
Proof.
  intros Hextra Hself.
  assert (Heq : brokerOrder.init args (extra ∪ kw) = brokerOrder.init args kw).
  { unfold brokerOrder.init.
    rewrite (lookup_union_r extra kw "self" Hself).
    rewrite !kwarg_union_ignored
      by (apply Hextra; unfold keyword_parameters; set_solver).
    reflexivity. }
  split; [exact Heq |]. intros order H. by rewrite Heq.
Qed.

End IgnoredKeywords.

Lemma unrecognised_keywords_witness :
  ((forall name, name ∈ keyword_parameters ->
      ({[ "modification_status" := PyStr "old"; "colour" := PyInt 3 ]}
         : gmap string pyval) !! name = None)
   /\ ({[ "modification_status" := PyStr "old"; "colour" := PyInt 3 ]}
         : gmap string pyval) !! "self" = None)
  /\ brokerOrder.init (BO := spec_base_orders) [key_201003; PyInt 10]
       ({[ "modification_status" := PyStr "old"; "colour" := PyInt 3 ]} ∪ kw_A)
     = inr order_A.
Proof.
  assert (Hout : forall name, name ∈ keyword_parameters ->
     ({[ "modification_status" := PyStr "old"; "colour" := PyInt 3 ]}
        : gmap string pyval) !! name = None).
  { intros name Hin. unfold keyword_parameters in Hin.
    repeat (apply elem_of_cons in Hin as [-> | Hin]; [reflexivity |]).
    by apply elem_of_nil in Hin. }
  split; [split; [exact Hout | reflexivity] |].
  apply (unrecognised_keywords_are_ignored (BO := spec_base_orders) _ kw_A _
           Hout eq_refl).
  vm_compute. reflexivity.
Defined.

(** The claim as stated fails on the keyword [self], which is no
    parameter of the documented set: the call without it returns order
    A, the call with it raises the TypeError of the argument binding. *)
Lemma self_keyword_counterexample :
  (forall name, name ∈ keyword_parameters ->
     ({[ "self" := PyInt 1 ]} : gmap string pyval) !! name = None)
  /\ brokerOrder.init (BO := spec_base_orders) [key_201003; PyInt 10] kw_A
     = inr order_A
  /\ brokerOrder.init (BO := spec_base_orders) [key_201003; PyInt 10]
       ({[ "self" := PyInt 1 ]} ∪ kw_A)
     = raise TypeError.
Proof.
  split.
  { intros name Hin. unfold keyword_parameters in Hin.
    repeat (apply elem_of_cons in Hin as [-> | Hin]; [reflexivity |]).
    by apply elem_of_nil in Hin. }
  split; vm_compute; reflexivity.
Qed.

(** ** The stages of a construction call *)

Section Stages.

Context `{BO : base_orders}.

Import brokerOrderKeyArguments.

Lemma split_inr_fields args f fp lfp mp sp op (ka : t pyval) :
  split_broker_order_args args f fp lfp mp sp op = inr ka ->
  fill ka = f /\ filled_price ka = fp /\ leg_filled_price ka = lfp
  /\ mid_price ka = mp /\ side_price ka = sp /\ offside_price ka = op.
Proof.
  unfold split_broker_order_args. intros H.
  apply bind_inr in H as ([tobj trade] & _ & H). injection H as <-.
  repeat split.
Qed.

Lemma resolve_inr_inv (self : t pyval) (ka : t tradeQuantity.t) :
  resolve_inputs_to_order_with_key_arguments self = inr ka ->
  exists rt rf rp lfp mp sp op,
    resolve_inputs_to_order (trade self) (fill self) (filled_price self)
      = inr (rt, rf, rp)
    /\ calculate_prices_with_possible_legs rt (leg_filled_price self)
         (mid_price self) (side_price self) (offside_price self)
         (filled_price self) = inr (lfp, mp, sp, op)
    /\ ka = mk _ (tradeable_object self) rt rf rp lfp mp sp op.
Proof.
  unfold resolve_inputs_to_order_with_key_arguments, copy. intros H.
  apply bind_inr in H as ([[rt rf] rp] & Hres & H).
  apply bind_inr in H as ([[[lfp mp] sp] op] & Hcalc & H).
  injection H as <-. by exists rt, rf, rp, lfp, mp, sp, op.
Qed.

(** A call that returns an order went through the three stages, and
    the order holds the sorted bundle. *)
Lemma init_inr_inv args kw order :
  brokerOrder.init args kw = inr order ->
  exists (raw : t pyval) (resolved sorted : t tradeQuantity.t),
    split_broker_order_args args
      (kwarg kw "fill" PyNone) (kwarg kw "filled_price" PyNone)
      (kwarg kw "leg_filled_price" (PyList []))
      (kwarg kw "mid_price" PyNone) (kwarg kw "side_price" PyNone)
      (kwarg kw "offside_price" PyNone) = inr raw
    /\ resolve_inputs_to_order_with_key_arguments raw = inr resolved
    /\ sort_inputs_by_contract_date_order resolved = inr sorted
    /\ Order.tradeable_object order = tradeable_object sorted
    /\ Order.trade order = trade sorted
    /\ Order.fill order = fill sorted
    /\ Order.filled_price order = filled_price sorted
    /\ brokerOrder.leg_filled_price order = ret (leg_filled_price sorted).
Proof.
  unfold brokerOrder.init, from_broker_order_args_to_resolved_args. intros H.
  destruct (kw !! "self"); [discriminate |].
  apply bind_inr in H as (sorted & Hpipe & H).
  apply bind_inr in Hpipe as (raw & Hsplit & Hpipe).
  apply bind_inr in Hpipe as (resolved & Hres & Hsort).
  injection H as <-.
  exists raw, resolved, sorted. repeat split; assumption || reflexivity.
Qed.

Lemma sort_keeps_prices (self sorted : t tradeQuantity.t) :
  sort_inputs_by_contract_date_order self = inr sorted ->
  filled_price sorted = filled_price self
  /\ leg_filled_price sorted = leg_filled_price self
  /\ mid_price sorted = mid_price self
  /\ side_price sorted = side_price self
  /\ offside_price sorted = offside_price self.
Proof.
  unfold sort_inputs_by_contract_date_order. intros H.
  apply bind_inr in H as (tr & _ & H).
  apply bind_inr in H as (fl & _ & H).
  apply bind_inr in H as (tobj & _ & H).
  injection H as <-. repeat split.
Qed.

End Stages.

(** ** Per-leg filled prices *)

Section LegPrices.

Context `{BO : base_orders}.

Import brokerOrderKeyArguments.

Lemma py_list_not_scalar original l :
  py_list original = inr l ->
  type_is_float original = false /\ is_None original = false.
Proof. destruct original; simpl; intros H; try discriminate; by split. Qed.

Lemma calculate_legacy trade lfp mp sp op original l lfp' mp' sp' op' :
  py_eq_empty_list lfp = true ->
  py_list original = inr l ->
  calculate_prices_with_possible_legs trade lfp mp sp op original
    = inr (lfp', mp', sp', op') ->
  lfp' = PyList l.
Proof.
  intros Hempty Hl. destruct (py_list_not_scalar _ _ Hl) as [Hf Hn].
  unfold calculate_prices_with_possible_legs, copy.
  rewrite Hf, Hn, Hempty, Hl. simpl. intros H.
  apply bind_inr in H as (m & _ & H).
  apply bind_inr in H as (s & _ & H).
  apply bind_inr in H as (o & _ & H).
  by injection H as <- _ _ _.
Qed.

Lemma calculate_ambiguous trade lfp mp sp op original :
  py_eq_empty_list lfp = false ->
  type_is_float original = false ->
  is_None original = false ->
  calculate_prices_with_possible_legs trade lfp mp sp op original
    = raise ParseAmbiguityError.
Proof.
  intros Hempty Hf Hn. unfold calculate_prices_with_possible_legs.
  by rewrite Hf, Hn, Hempty.
Qed.

(** C5: when the filled price of the call is a per-leg list (not a
    float, not None) and leg_filled_price is not supplied, or supplied
    empty, the order built has that list, element for element, as its
    leg_filled_price, and its filled_price is the price
    [resolve_inputs_to_order] coerced the list to: the list is read
    from the snapshot taken before the coercion. *)
Theorem legacy_filled_price_kept_per_leg
    (args : list pyval) (kw : gmap string pyval)
    (original : pyval) (l : list pyval) (order : Order.t) :
  kw !! "filled_price" = Some original ->
  py_list original = inr l ->
  py_eq_empty_list (kwarg kw "leg_filled_price" (PyList [])) = true ->
  brokerOrder.init args kw = inr order ->
  brokerOrder.leg_filled_price order = ret (PyList l)
  /\ (forall prices, original = PyList prices ->
        brokerOrder.leg_filled_price order = ret original)
  /\ exists (raw : t pyval) resolved_trade resolved_fill,
       split_broker_order_args args
         (kwarg kw "fill" PyNone) original
         (kwarg kw "leg_filled_price" (PyList []))
         (kwarg kw "mid_price" PyNone) (kwarg kw "side_price" PyNone)
         (kwarg kw "offside_price" PyNone) = inr raw
       /\ resolve_inputs_to_order (trade raw) (fill raw) original
          = inr (resolved_trade, resolved_fill, Order.filled_price order).
Proof.
  intros Hfp Hl Hempty Hinit.
  apply init_inr_inv in Hinit
    as (raw & resolved & sorted & Hsplit & Hres & Hsort & _ & _ & _ & Hprice & Hleg).
  assert (Hkw : kwarg kw "filled_price" PyNone = original)
    by (unfold kwarg; by rewrite Hfp).
  rewrite Hkw in Hsplit.
  destruct (split_inr_fields _ _ _ _ _ _ _ _ Hsplit)
    as (_ & Hrawfp & Hrawleg & _).
  apply resolve_inr_inv in Hres
    as (rt & rf & rp & lfp & mp & sp & op & Hnorm & Hcalc & ->).
  rewrite Hrawfp in Hnorm, Hcalc. rewrite Hrawleg in Hcalc.
  apply (calculate_legacy _ _ _ _ _ _ l) in Hcalc as ->; [| assumption ..].
  destruct (sort_keeps_prices _ _ Hsort) as (Hsfp & Hsleg & _).
  simpl in Hsfp, Hsleg. rewrite Hsleg in Hleg. rewrite Hsfp in Hprice.
  split; [exact Hleg |].
  split.
  { intros prices ->. simpl in Hl. injection Hl as <-. exact Hleg. }
  exists raw, rt, rf. split; [exact Hsplit |]. rewrite Hprice. exact Hnorm.
Qed.

(** C6: a call with an explicit leg_filled_price other than the empty
    list and a filled price that is neither a float nor None fails with
    "Not sure how to parse order" and returns no order.  The price
    resolver raises that exception on every such input; no such call
    returns an order; and the exception of the call is that one for
    every call that reaches the price resolver: its arguments bind (no
    keyword named self), the argument splitter returns and
    [resolve_inputs_to_order] returns. *)
Theorem ambiguous_price_shape_raises
    (args : list pyval) (kw : gmap string pyval) (lfp original : pyval) :
  kw !! "leg_filled_price" = Some lfp ->
  py_eq_empty_list lfp = false ->
  kw !! "filled_price" = Some original ->
  type_is_float original = false ->
  is_None original = false ->
  (forall trade mp sp op,
     calculate_prices_with_possible_legs trade lfp mp sp op original
     = raise ParseAmbiguityError)
  /\ (forall order, brokerOrder.init args kw <> inr order)
  /\ (forall (raw : t pyval) normalised,
        kw !! "self" = None ->
        split_broker_order_args args
          (kwarg kw "fill" PyNone) original lfp
          (kwarg kw "mid_price" PyNone) (kwarg kw "side_price" PyNone)
          (kwarg kw "offside_price" PyNone) = inr raw ->
        resolve_inputs_to_order (trade raw) (fill raw) original = inr normalised ->
        brokerOrder.init args kw = raise ParseAmbiguityError).
Proof.
  intros Hleg Hempty Hfp Hf Hn.
  assert (Hkfp : kwarg kw "filled_price" PyNone = original)
    by (unfold kwarg; by rewrite Hfp).
  assert (Hklfp : kwarg kw "leg_filled_price" (PyList []) = lfp)
    by (unfold kwarg; by rewrite Hleg).
  split; [intros; by apply calculate_ambiguous |].
  split.
  - intros order Hinit.
    apply init_inr_inv in Hinit as (raw & resolved & _ & Hsplit & Hres & _).
    rewrite Hkfp, Hklfp in Hsplit.
    destruct (split_inr_fields _ _ _ _ _ _ _ _ Hsplit) as (_ & Hrfp & Hrleg & _).
    apply resolve_inr_inv in Hres
      as (rt & rf & rp & lfp' & mp & sp & op & _ & Hcalc & _).
    rewrite Hrfp, Hrleg in Hcalc.
    rewrite calculate_ambiguous in Hcalc by assumption. discriminate.
  - intros raw [[rt rf] rp] Hself Hsplit Hnorm.
    destruct (split_inr_fields _ _ _ _ _ _ _ _ Hsplit) as (_ & Hrfp & Hrleg & _).
    unfold brokerOrder.init, from_broker_order_args_to_resolved_args.
    rewrite Hself, Hkfp, Hklfp, Hsplit. simpl.
    unfold resolve_inputs_to_order_with_key_arguments, copy.
    rewrite Hrfp, Hnorm. simpl. rewrite Hrleg.
    by rewrite calculate_ambiguous.
Qed.

End LegPrices.

Lemma legacy_filled_price_witness :
  brokerOrder.init (BO := spec_base_orders) [key_201003; PyInt 10] kw_legacy
    = inr order_legacy
  /\ brokerOrder.leg_filled_price order_legacy = ret (PyList [PyFloat 101.5])
  /\ Order.filled_price order_legacy = PyFloat 101.5.
Proof.
  assert (H : brokerOrder.init (BO := spec_base_orders) [key_201003; PyInt 10] kw_legacy
              = inr order_legacy) by (vm_compute; reflexivity).
  split; [exact H |]. split; [| reflexivity].
  destruct (legacy_filled_price_kept_per_leg (BO := spec_base_orders)
              [key_201003; PyInt 10] kw_legacy
              (PyList [PyFloat 101.5]) [PyFloat 101.5] order_legacy)
    as [Hleg _]; [reflexivity | reflexivity | reflexivity | exact H |].
  exact Hleg.
Defined.

Lemma ambiguous_price_shape_witness :
  (kw_ambiguous !! "leg_filled_price" = Some (PyList [PyFloat 101.5])
   /\ kw_ambiguous !! "filled_price" = Some (PyList [PyFloat 101.5])
   /\ kw_ambiguous !! "self" = None)
  /\ brokerOrder.init (BO := spec_base_orders) [key_201003; PyInt 10] kw_ambiguous
     = raise ParseAmbiguityError.
Proof.
  split; [repeat split; reflexivity |].
  destruct (ambiguous_price_shape_raises (BO := spec_base_orders)
              [key_201003; PyInt 10] kw_ambiguous
              (PyList [PyFloat 101.5]) (PyList [PyFloat 101.5]))
    as (_ & _ & H);
    [reflexivity | reflexivity | reflexivity | reflexivity | reflexivity |].
  eapply H; [reflexivity | vm_compute; reflexivity | vm_compute; reflexivity].
Defined.

(** A call with three positional arguments does not reach the price
    resolver: given both prices as lists, it raises the exception of the
    argument splitter. *)
Example wrong_arity_precedes_price_shape :
  brokerOrder.init (BO := spec_base_orders)
    [PyStr "a strategy"; PyStr "an instrument"; PyInt 10] kw_ambiguous
  = raise ArgumentShapeError.
Proof. reflexivity. Qed.

(** ** Reading a persisted order *)

Lemma pop_inr key d v d' :
  pop key d = inr (v, d') -> d !! key = Some v /\ d' = delete key d.
Proof.
  unfold pop. destruct (d !! key); simpl; intros H; [| discriminate].
  injection H as <- <-. by split.
Qed.

Lemma pop_inl key d e : pop key d = inl e -> e = KeyError key /\ d !! key = None.
Proof.
  unfold pop. destruct (d !! key) eqn:Hd; simpl; intros H; [discriminate |].
  injection H as <-. by split.
Qed.

Lemma pop_absent key d : d !! key = None -> pop key d = raise (KeyError key).
Proof. unfold pop. by intros ->. Qed.

Section FromDict.

Context `{BO : base_orders}.

Lemma init_inr_bookkeeping args kw order :
  brokerOrder.init args kw = inr order ->
  Order.order_id order = kwarg kw "order_id" no_order_id
  /\ Order.parent order = kwarg kw "parent" no_parent
  /\ Order.children order = kwarg kw "children" no_children
  /\ Order.order_type order
     = kwarg kw "order_type" (brokerOrderType (PyStr "market")).
Proof.
  unfold brokerOrder.init. intros H.
  destruct (kw !! "self"); [discriminate |].
  apply bind_inr in H as (ka & _ & H). injection H as <-. by repeat split.
Qed.

(** C8, as the code has it: [from_dict] pops 'order_id', 'parent' and
    'children' without a default, so a dictionary that lacks one of
    them raises a KeyError; a dictionary that has them is read with
    None replaced by the sentinel, and the order type is rebuilt from
    the stored 'order_type' entry (from None when there is none). *)
Theorem from_dict_sentinels_replace_None (d : gmap string pyval) :
  (forall key, key ∈ ["order_id"; "parent"; "children"] ->
     d !! key = None ->
     exists k, brokerOrder.from_dict d = raise (KeyError k))
  /\ (forall order, brokerOrder.from_dict d = inr order ->
        exists oid par chi,
          d !! "order_id" = Some oid /\ d !! "parent" = Some par
          /\ d !! "children" = Some chi
          /\ Order.order_id order = none_to_object oid no_order_id
          /\ Order.parent order = none_to_object par no_parent
          /\ Order.children order = none_to_object chi no_children
          /\ (oid = PyNone -> Order.order_id order = no_order_id)
          /\ (par = PyNone -> Order.parent order = no_parent)
          /\ (chi = PyNone -> Order.children order = no_children)
          /\ Order.order_type order
             = brokerOrderType (kwarg d "order_type" PyNone)).
Proof.
  split.
  - intros key Hkey Hnone. unfold brokerOrder.from_dict.
    repeat lazymatch goal with
    | |- context [pop ?k ?m] =>
        let Hp := fresh "Hp" in
        destruct (pop k m) as [e | [? ?]] eqn:Hp; simpl;
        [ apply pop_inl in Hp as [-> _]; eauto
        | apply pop_inr in Hp as [? ->] ]
    end.
    exfalso. rewrite !lookup_delete_ne in * by done.
    repeat (apply elem_of_cons in Hkey as [-> | Hkey]);
      [congruence | congruence | congruence | by apply elem_of_nil in Hkey].
  - intros order. unfold brokerOrder.from_dict. intros H.
    repeat lazymatch type of H with
    | bind (pop ?k ?m) _ = inr _ =>
        let Hp := fresh "Hp" in
        apply bind_inr in H as ([? ?] & Hp & H);
        apply pop_inr in Hp as [Hp ->]
    end.
    unfold pop_default in H. simpl in H.
    apply init_inr_bookkeeping in H as (Hid & Hpar & Hchi & Hty).
    rewrite !lookup_delete_ne in * by done.
    unfold kwarg in Hid, Hpar, Hchi, Hty.
    rewrite !lookup_insert_ne, lookup_insert_eq in Hid by done.
    rewrite !lookup_insert_ne, lookup_insert_eq in Hpar by done.
    rewrite !lookup_insert_ne, lookup_insert_eq in Hchi by done.
    rewrite !lookup_insert_ne, lookup_insert_eq in Hty by done.
    repeat match goal with
           | Hl : d !! _ = Some ?v |- _ => revert Hl
           end.
    intros. do 3 eexists.
    repeat (split; [eassumption |]).
    rewrite Hid, Hpar, Hchi, Hty.
    repeat split; try (intros ->; reflexivity).
    unfold kwarg. by rewrite !lookup_delete_ne by done.
Qed.

End FromDict.

(** The persisted order [dict_A] stores None three times and is read
    with the sentinels in their place. *)
Example from_dict_dict_A :
  brokerOrder.from_dict (BO := spec_base_orders) dict_A
  = inr (one_leg_order [10%Z] [0%Z] PyNone PyNone (PyFloat 2.3) (PyStr "")
           (PyStr "Passive") (PyList []))
  /\ Order.order_id
       (one_leg_order [10%Z] [0%Z] PyNone PyNone (PyFloat 2.3) (PyStr "")
          (PyStr "Passive") (PyList []))
     = no_order_id (base_orders := spec_base_orders).
Proof. split; vm_compute; reflexivity. Qed.

(** The claim as stated fails on [dict_A] without its 'order_id' entry:
    the call raises KeyError('order_id') and returns no order. *)
Lemma from_dict_absent_order_id_counterexample :
  delete "order_id" dict_A !! "order_id" = None
  /\ brokerOrder.from_dict (BO := spec_base_orders) (delete "order_id" dict_A)
     = raise (KeyError "order_id")
  /\ ~ (exists order,
          brokerOrder.from_dict (BO := spec_base_orders) (delete "order_id" dict_A)
          = inr order).
Proof.
  assert (H : brokerOrder.from_dict (BO := spec_base_orders) (delete "order_id" dict_A)
              = raise (KeyError "order_id")) by (vm_compute; reflexivity).
  split; [vm_compute; reflexivity |]. split; [exact H |].
  intros [order Horder]. rewrite H in Horder. discriminate.
Qed.

(** ** The sort pass *)

Section TakeWithIdx.

Context {A : Type}.
Implicit Types (l : list A) (idx : list nat).

Lemma take_with_idx_inr l idx l' :
  tradeQuantity.take_with_idx l idx = inr l' ->
  length l' = length idx
  /\ forall i k, idx !! i = Some k -> l' !! i = l !! k /\ is_Some (l !! k).
Proof.
  revert l'. induction idx as [| j idx IH]; intros l' H; simpl in H.
  - injection H as <-. split; [reflexivity |]. intros i k Hi. destruct i; discriminate.
  - destruct (l !! j) as [x |] eqn:Hj; [| discriminate].
    apply bind_inr in H as (xs & Hxs & H). injection H as <-.
    destruct (IH _ Hxs) as [Hlen Hnth]. split; [simpl; by rewrite Hlen |].
    intros [| i] k Hi; simpl in Hi.
    + injection Hi as <-. simpl. split; [by rewrite Hj | by rewrite Hj].
    + simpl. by apply Hnth.
Qed.

Lemma take_with_idx_returns l idx :
  Forall (fun k => k < length l) idx ->
  exists l', tradeQuantity.take_with_idx l idx = inr l'.
Proof.
  induction 1 as [| j idx Hj _ [xs IH]]; simpl; [by eexists |].
  destruct (lookup_lt_is_Some_2 l j Hj) as [x ->].
  rewrite IH. simpl. by eexists.
Qed.

Lemma take_with_idx_map l idx l' :
  tradeQuantity.take_with_idx l idx = inr l' ->
  forall dflt, l' = map (fun k => nth k l dflt) idx.
Proof.
  revert l'. induction idx as [| j idx IH]; intros l' H dflt; simpl in H.
  - by injection H as <-.
  - destruct (l !! j) as [x |] eqn:Hj; [| discriminate].
    apply bind_inr in H as (xs & Hxs & H). injection H as <-.
    simpl. f_equal; [| by apply IH].
    symmetry. apply nth_lookup_Some with (d := dflt) in Hj. exact Hj.
Qed.

End TakeWithIdx.

Lemma map_nth_seq {A : Type} (l : list A) (d : A) :
  map (fun k => nth k l d) (seq 0 (length l)) = l.
Proof.
  induction l as [| x l IH]; simpl; [reflexivity |].
  f_equal. rewrite <- seq_shift, map_map. exact IH.
Qed.

Section SortIdx.

Variable key : nat -> string.

Lemma insert_idx_perm i l :
  Permutation (futuresContractStrategy.insert_idx key i l) (i :: l).
Proof.
  induction l as [| j l IH]; simpl; [reflexivity |].
  destruct (String.leb (key i) (key j)); [reflexivity |].
  rewrite IH. apply perm_swap.
Qed.

Lemma insertion_perm l :
  Permutation (foldr (futuresContractStrategy.insert_idx key) [] l) l.
Proof.
  induction l as [| i l IH]; simpl; [reflexivity |].
  rewrite insert_idx_perm. by constructor.
Qed.

Let key_le (i j : nat) : Prop := date_le (key i) (key j).

Lemma insert_idx_hdrel a i l :
  key_le a i -> HdRel key_le a l ->
  HdRel key_le a (futuresContractStrategy.insert_idx key i l).
Proof.
  intros Hai Hal. destruct l as [| j l]; simpl; [by constructor |].
  destruct (String.leb (key i) (key j)); constructor; [exact Hai |].
  by inversion Hal.
Qed.

Lemma insert_idx_sorted i l :
  Sorted key_le l -> Sorted key_le (futuresContractStrategy.insert_idx key i l).
Proof.
  induction 1 as [| j l Hsorted IH Hhd]; simpl; [by repeat constructor |].
  destruct (String.leb (key i) (key j)) eqn:Hij.
  - constructor; [by constructor |]. by constructor.
  - constructor; [exact IH |].
    apply insert_idx_hdrel; [| exact Hhd].
    unfold key_le, date_le. destruct (String.leb_total (key i) (key j)); congruence.
Qed.

Lemma insertion_sorted l :
  Sorted key_le (foldr (futuresContractStrategy.insert_idx key) [] l).
Proof.
  induction l as [| i l IH]; simpl; [constructor | by apply insert_idx_sorted].
Qed.

End SortIdx.

Lemma sort_idx_perm (self : futuresContractStrategy.t) :
  Permutation (futuresContractStrategy.sort_idx_for_contracts self)
    (seq 0 (length (futuresContractStrategy.contract_date self))).
Proof. apply insertion_perm. Qed.

Lemma sort_idx_in_range (self : futuresContractStrategy.t) :
  Forall (fun k => k < length (futuresContractStrategy.contract_date self))
    (futuresContractStrategy.sort_idx_for_contracts self).
Proof.
  apply List.Forall_forall. intros k Hk.
  apply (Permutation_in _ (sort_idx_perm self)) in Hk.
  apply in_seq in Hk. lia.
Qed.

Lemma sort_idx_length (self : futuresContractStrategy.t) :
  length (futuresContractStrategy.sort_idx_for_contracts self)
  = length (futuresContractStrategy.contract_date self).
Proof.
  rewrite (Permutation_length (sort_idx_perm self)). apply length_seq.
Qed.

Lemma Sorted_map_key (key : nat -> string) (p : list nat) :
  Sorted (fun i j => date_le (key i) (key j)) p -> Sorted date_le (map key p).
Proof.
  induction 1 as [| i p Hs IH Hhd]; simpl; constructor; [exact IH |].
  destruct Hhd; simpl; by constructor.
Qed.

Section SortPass.

Context `{BO : base_orders}.

Import brokerOrderKeyArguments.

Lemma sort_pass_inv (self sorted : t tradeQuantity.t) :
  sort_inputs_by_contract_date_order self = inr sorted ->
  let p := futuresContractStrategy.sort_idx_for_contracts (tradeable_object self) in
  tradeQuantity.take_with_idx (trade self) p = inr (trade sorted)
  /\ tradeQuantity.take_with_idx (fill self) p = inr (fill sorted)
  /\ tradeQuantity.take_with_idx (legs self) p = inr (legs sorted).
Proof.
  intros H p. unfold legs.
  unfold sort_inputs_by_contract_date_order,
    futuresContractStrategy.sort_contracts_with_idx, tradeQuantity.sort_with_idx in H.
  apply bind_inr in H as (tr & Htr & H).
  apply bind_inr in H as (fl & Hfl & H).
  apply bind_inr in H as (tobj & Htobj & H).
  apply bind_inr in Htobj as (dates & Hdates & Htobj).
  injection Htobj as <-. injection H as <-. simpl. by repeat split.
Qed.

(** The sort pass returns whenever the trade and the fill have an
    entry for every leg. *)
Lemma sort_pass_returns (self : t tradeQuantity.t) :
  length (legs self) <= length (trade self) ->
  length (legs self) <= length (fill self) ->
  exists sorted, sort_inputs_by_contract_date_order self = inr sorted.
Proof.
  unfold legs. intros Htrade Hfill.
  pose proof (sort_idx_in_range (tradeable_object self)) as Hrange.
  unfold sort_inputs_by_contract_date_order,
    futuresContractStrategy.sort_contracts_with_idx, tradeQuantity.sort_with_idx.
  destruct (take_with_idx_returns (trade self) _
              (Forall_impl _ _ _ Hrange (fun k Hk => Nat.lt_le_trans _ _ _ Hk Htrade)))
    as [tr ->].
  destruct (take_with_idx_returns (fill self) _
              (Forall_impl _ _ _ Hrange (fun k Hk => Nat.lt_le_trans _ _ _ Hk Hfill)))
    as [fl ->].
  destruct (take_with_idx_returns
              (futuresContractStrategy.contract_date (tradeable_object self)) _ Hrange)
    as [dates ->].
  simpl. by eexists.
Qed.

Lemma sort_pass_one_permutation (self sorted : t tradeQuantity.t) :
  sort_inputs_by_contract_date_order self = inr sorted ->
  let p := futuresContractStrategy.sort_idx_for_contracts (tradeable_object self) in
  Permutation p (seq 0 (length (legs self)))
  /\ length (trade sorted) = length (legs self)
  /\ length (fill sorted) = length (legs self)
  /\ length (legs sorted) = length (legs self)
  /\ (forall i k, p !! i = Some k ->
        trade sorted !! i = trade self !! k
        /\ fill sorted !! i = fill self !! k
        /\ legs sorted !! i = legs self !! k
        /\ is_Some (legs self !! k))
  /\ Permutation (legs sorted) (legs self)
  /\ Sorted date_le (legs sorted).
Proof.
  intros H p. destruct (sort_pass_inv _ _ H) as (Htr & Hfl & Hlegs).
  fold p in Htr, Hfl, Hlegs. unfold legs in *.
  destruct (take_with_idx_inr _ _ _ Htr) as [Hlt Hnt].
  destruct (take_with_idx_inr _ _ _ Hfl) as [Hlf Hnf].
  destruct (take_with_idx_inr _ _ _ Hlegs) as [Hll Hnl].
  pose proof (sort_idx_length (tradeable_object self)) as Hlen. fold p in Hlen.
  split; [apply sort_idx_perm |].
  repeat (split; [congruence |]).
  split.
  { intros i k Hik.
    split; [exact (proj1 (Hnt i k Hik)) |].
    split; [exact (proj1 (Hnf i k Hik)) |].
    exact (Hnl i k Hik). }
  pose proof (take_with_idx_map _ _ _ Hlegs EmptyString) as Hmap.
  split.
  - rewrite Hmap.
    eapply Permutation_trans; [apply Permutation_map, sort_idx_perm |].
    by rewrite map_nth_seq.
  - rewrite Hmap. apply Sorted_map_key. apply insertion_sorted.
Qed.

(** C3: in a construction call that returns an order, the trade, the
    fill and the legs of the order are the resolved trade, the resolved
    fill and the legs as given, each read through one and the same
    index list, the ascending contract-date order of the legs: entry i
    of each is entry p[i] of its original, the three have the length
    of the leg list, and the legs end in ascending order.  The sort
    pass returns whenever trade and fill have an entry for every leg. *)
Theorem construction_sorts_by_one_permutation
    (args : list pyval) (kw : gmap string pyval) (order : Order.t) :
  brokerOrder.init args kw = inr order ->
  exists (raw : t pyval) (resolved : t tradeQuantity.t) (p : list nat),
    split_broker_order_args args
      (kwarg kw "fill" PyNone) (kwarg kw "filled_price" PyNone)
      (kwarg kw "leg_filled_price" (PyList []))
      (kwarg kw "mid_price" PyNone) (kwarg kw "side_price" PyNone)
      (kwarg kw "offside_price" PyNone) = inr raw
    /\ resolve_inputs_to_order_with_key_arguments raw = inr resolved
    /\ p = futuresContractStrategy.sort_idx_for_contracts (tradeable_object resolved)
    /\ Permutation p (seq 0 (length (legs resolved)))
    /\ length (Order.trade order) = length (legs resolved)
    /\ length (Order.fill order) = length (legs resolved)
    /\ length (futuresContractStrategy.contract_date (Order.tradeable_object order))
       = length (legs resolved)
    /\ (forall i k, p !! i = Some k ->
          Order.trade order !! i = trade resolved !! k
          /\ Order.fill order !! i = fill resolved !! k
          /\ futuresContractStrategy.contract_date (Order.tradeable_object order) !! i
             = legs resolved !! k
          /\ is_Some (legs resolved !! k))
    /\ Permutation
         (futuresContractStrategy.contract_date (Order.tradeable_object order))
         (legs resolved)
    /\ Sorted date_le
         (futuresContractStrategy.contract_date (Order.tradeable_object order))
    /\ (forall self : t tradeQuantity.t,
          length (legs self) <= length (trade self) ->
          length (legs self) <= length (fill self) ->
          exists sorted, sort_inputs_by_contract_date_order self = inr sorted).
Proof.
  intros Hinit.
  apply init_inr_inv in Hinit
    as (raw & resolved & sorted & Hsplit & Hres & Hsort & Htobj & Htr & Hfl & _).
  exists raw, resolved,
    (futuresContractStrategy.sort_idx_for_contracts (tradeable_object resolved)).
  destruct (sort_pass_one_permutation _ _ Hsort)
    as (Hperm & Hlt & Hlf & Hll & Hnth & Hpl & Hsorted).
  rewrite Htobj, Htr, Hfl.
  repeat (split; [assumption || reflexivity |]).
  intros self. apply sort_pass_returns.
Qed.

End SortPass.

Lemma spread_sorted_witness :
  exists order,
    brokerOrder.init (BO := spec_base_orders) args_spread kw_spread = inr order
    /\ futuresContractStrategy.contract_date (Order.tradeable_object order)
       = ["201003"; "201406"]
    /\ Order.trade order = [(-6)%Z; 6%Z]
    /\ Order.fill order = [(-2)%Z; 1%Z]
    /\ length (Order.trade order) = length (Order.fill order).
Proof.
  eexists. split; [vm_compute; reflexivity |].
  repeat (split; [reflexivity |]).
  match goal with
  | |- length (Order.trade ?o) = _ =>
      destruct (construction_sorts_by_one_permutation (BO := spec_base_orders)
                  args_spread kw_spread o)
        as (raw & resolved & p & _ & _ & _ & _ & Ht & Hf & _);
      [vm_compute; reflexivity |]
  end.
  rewrite Ht, Hf. reflexivity.
Defined.

(** ** The two argument forms *)

Section Strings.

Variable sep : ascii.

Lemma split_on_no_sep s : contains sep s = false -> split_on sep s = [s].
Proof.
  induction s as [| c s IH]; simpl; [reflexivity |].
  intros H. apply orb_false_elim in H as [Hc Hs]. rewrite Hc, (IH Hs). reflexivity.
Qed.

Lemma split_on_app a b :
  contains sep a = false ->
  split_on sep (a +:+ String sep b) = a :: split_on sep b.
Proof.
  induction a as [| c a IH]; simpl.
  - intros _. by rewrite Ascii.eqb_refl.
  - intros H. apply orb_false_elim in H as [Hc Ha]. by rewrite Hc, (IH Ha).
Qed.

Lemma split_on_join l :
  l <> [] -> Forall (fun w => contains sep w = false) l ->
  split_on sep (join sep l) = l.
Proof.
  induction l as [| w l IH]; [congruence |].
  intros _ Hall. apply Forall_cons in Hall as [Hw Hl].
  destruct l as [| w' l]; [by apply split_on_no_sep |].
  change (join sep (w :: w' :: l)) with (w +:+ String sep (join sep (w' :: l))).
  rewrite split_on_app by exact Hw. f_equal. by apply IH.
Qed.

Lemma contains_app c a b :
  contains c (a +:+ b) = contains c a || contains c b.
Proof.
  induction a as [| x a IH]; simpl; [reflexivity |].
  by rewrite IH, orb_assoc.
Qed.

Lemma contains_join c l :
  Ascii.eqb sep c = false ->
  Forall (fun w => contains c w = false) l ->
  contains c (join sep l) = false.
Proof.
  intros Hsep. induction 1 as [| w l Hw Hl IH]; [reflexivity |].
  destruct l as [| w' l]; [exact Hw |].
  change (join sep (w :: w' :: l)) with (w +:+ String sep (join sep (w' :: l))).
  rewrite contains_app, Hw.
  change (contains c (String sep (join sep (w' :: l))))
    with (Ascii.eqb sep c || contains c (join sep (w' :: l))).
  by rewrite Hsep, IH.
Qed.

End Strings.

Lemma as_str_list_map_PyStr (l : list string) :
  futuresContractStrategy.as_str_list (map PyStr l) = ret l.
Proof. induction l as [| s l IH]; simpl; [reflexivity | by rewrite IH]. Qed.

Section KeyForms.

Variables (s i : string) (dates : list string).
Hypothesis strategy_plain : contains "/" s = false.
Hypothesis instrument_plain : contains "/" i = false.
Hypothesis some_leg : dates <> [].
Hypothesis dates_plain :
  Forall (fun d => contains "/" d = false /\ contains "_" d = false) dates.

Lemma split_key_of :
  split_on "/" (futuresContractStrategy.key_of s i dates) = [s; i; join "_" dates].
Proof.
  unfold futuresContractStrategy.key_of.
  rewrite split_on_app by exact strategy_plain.
  rewrite split_on_app by exact instrument_plain.
  rewrite split_on_no_sep; [reflexivity |].
  apply contains_join; [reflexivity |].
  eapply Forall_impl; [exact dates_plain |]. by intros d [H _].
Qed.

Lemma split_join_dates : split_on "_" (join "_" dates) = dates.
Proof.
  apply split_on_join; [exact some_leg |].
  eapply Forall_impl; [exact dates_plain |]. by intros d [_ H].
Qed.

Lemma from_key_key_of :
  futuresContractStrategy.from_key (PyStr (futuresContractStrategy.key_of s i dates))
  = ret (futuresContractStrategy.mk s i dates).
Proof.
  unfold futuresContractStrategy.from_key. simpl. rewrite split_key_of.
  unfold futuresContractStrategy.new. simpl. by rewrite split_join_dates.
Qed.

Lemma new_date_list :
  futuresContractStrategy.new (PyStr s) (PyStr i) (PyList (map PyStr dates))
  = ret (futuresContractStrategy.mk s i dates).
Proof.
  unfold futuresContractStrategy.new. simpl. by rewrite as_str_list_map_PyStr.
Qed.

Lemma new_date_string :
  futuresContractStrategy.new (PyStr s) (PyStr i) (PyStr (join "_" dates))
  = ret (futuresContractStrategy.mk s i dates).
Proof.
  unfold futuresContractStrategy.new. simpl. by rewrite split_join_dates.
Qed.

End KeyForms.

Section ArgumentForms.

Context `{BO : base_orders}.

(** C7: the call with the key string 'strategy/instrument/contract'
    and the trade, and the call with strategy, instrument, contract id
    (the list of dates, or the dates joined by '_') and the trade,
    given the same keywords, return the same result: the same order,
    field for field, or the same exception.  The components are names
    without '/', the dates without '/' and '_', of at least one leg. *)
Theorem two_and_four_argument_forms_agree
    (s i : string) (dates : list string) (trade : pyval)
    (kw : gmap string pyval) :
  contains "/" s = false ->
  contains "/" i = false ->
  dates <> [] ->
  Forall (fun d => contains "/" d = false /\ contains "_" d = false) dates ->
  brokerOrder.init [PyStr (futuresContractStrategy.key_of s i dates); trade] kw
  = brokerOrder.init [PyStr s; PyStr i; PyList (map PyStr dates); trade] kw
  /\ brokerOrder.init [PyStr (futuresContractStrategy.key_of s i dates); trade] kw
     = brokerOrder.init [PyStr s; PyStr i; PyStr (join "_" dates); trade] kw.
Proof.
  intros Hs Hi Hne Hdates.
  unfold brokerOrder.init, from_broker_order_args_to_resolved_args,
    split_broker_order_args.
  rewrite (from_key_key_of s i dates Hs Hi Hne Hdates).
  rewrite (new_date_list s i dates).
  rewrite (new_date_string s i dates Hne Hdates).
  split; reflexivity.
Qed.

End ArgumentForms.

Lemma argument_forms_witness :
  (contains "/" "a strategy" = false
   /\ contains "/" "an instrument" = false
   /\ ["201003"; "201406"] <> ([] : list string)
   /\ Forall (fun d => contains "/" d = false /\ contains "_" d = false)
        ["201003"; "201406"])
  /\ brokerOrder.init (BO := spec_base_orders)
       [PyStr "a strategy/an instrument/201003_201406"; PyList [PyInt 6; PyInt (-6)]] ∅
     = brokerOrder.init (BO := spec_base_orders)
         [PyStr "a strategy"; PyStr "an instrument";
          PyList [PyStr "201003"; PyStr "201406"]; PyList [PyInt 6; PyInt (-6)]] ∅
  /\ exists order,
       brokerOrder.init (BO := spec_base_orders)
         [PyStr "a strategy/an instrument/201003_201406"; PyList [PyInt 6; PyInt (-6)]] ∅
       = inr order.
Proof.
  assert (Hdates : Forall (fun d => contains "/" d = false /\ contains "_" d = false)
                     ["201003"; "201406"]) by (repeat constructor).
  split; [repeat split; [discriminate | exact Hdates] |].
  split.
  - exact (proj1 (two_and_four_argument_forms_agree (BO := spec_base_orders)
                    "a strategy" "an instrument" ["201003"; "201406"]
                    (PyList [PyInt 6; PyInt (-6)]) ∅
                    eq_refl eq_refl ltac:(discriminate) Hdates)).
  - eexists. vm_compute. reflexivity.
Defined.

(** ** Evaluations *)

Example split_key :
  split_on "/" "a strategy/an instrument/201003_201406"
  = ["a strategy"; "an instrument"; "201003_201406"].
Proof. reflexivity. Qed.

Example sort_idx_example :
  futuresContractStrategy.sort_idx_for_contracts
    (futuresContractStrategy.mk "s" "i" ["201406"; "201003"; "201403"]) = [1; 2; 0]%nat.
Proof. reflexivity. Qed.

(** The docstring's single-leg pair:
    brokerOrder('a strategy', 'an instrument', '201003', 6) and
    brokerOrder('a strategy/an instrument/201003', 6). *)
Example single_leg_forms :
  brokerOrder.init (BO := spec_base_orders)
    [PyStr "a strategy"; PyStr "an instrument"; PyStr "201003"; PyInt 6] ∅
  = brokerOrder.init (BO := spec_base_orders)
      [PyStr "a strategy/an instrument/201003"; PyInt 6] ∅.
Proof. vm_compute. reflexivity. Qed.

(** The rejection case of the spec: A keeps its fill [0]. *)
Example reconcile_rejection :
  brokerOrder.add_execution_details_from_matched_broker_order order_A order_overfilled
  = (order_A, ret fill_exceeds_trade).
Proof. vm_compute. reflexivity. Qed.

(** * Further properties of the module *)

(** ** Setters *)

Lemma order_info_get_set_eq key v o :
  Order.order_info_get key (Order.order_info_set key v o) = ret v.
Proof. unfold Order.order_info_get, Order.order_info_set. simpl. by rewrite lookup_insert_eq. Qed.

Lemma order_info_get_set_ne key key' v o :
  key <> key' ->
  Order.order_info_get key' (Order.order_info_set key v o) = Order.order_info_get key' o.
Proof.
  intros Hne. unfold Order.order_info_get, Order.order_info_set. simpl.
  by rewrite lookup_insert_ne.
Qed.

(** X1: the setters of limit_price, submit_datetime, algo_comment,
    broker_permid, broker_clientid, broker_tempid and commission store
    their argument, which the getter then returns; the leg_filled_price
    setter is the exception, after it the getter returns the builtin
    class [list] for every argument.  Each setter, manual_fill's too,
    leaves every other entry of order_info as it was. *)
Theorem setters_store_their_argument_except_leg_filled_price
    (o : Order.t) (v : pyval) :
  brokerOrder.limit_price (brokerOrder.set_limit_price o v) = ret v
  /\ brokerOrder.submit_datetime (brokerOrder.set_submit_datetime o v) = ret v
  /\ brokerOrder.algo_comment (brokerOrder.set_algo_comment o v) = ret v
  /\ brokerOrder.broker_permid (brokerOrder.set_broker_permid o v) = ret v
  /\ brokerOrder.broker_clientid (brokerOrder.set_broker_clientid o v) = ret v
  /\ brokerOrder.broker_tempid (brokerOrder.set_broker_tempid o v) = ret v
  /\ brokerOrder.commission (brokerOrder.set_commission o v) = ret v
  /\ brokerOrder.leg_filled_price (brokerOrder.set_leg_filled_price o v)
     = ret PyBuiltinList
  /\ (forall key,
        key <> "limit_price" ->
        Order.order_info_get key (brokerOrder.set_limit_price o v)
        = Order.order_info_get key o)
  /\ (forall key,
        key <> "submit_datetime" ->
        Order.order_info_get key (brokerOrder.set_submit_datetime o v)
        = Order.order_info_get key o)
  /\ (forall key,
        key <> "manual_fill" ->
        Order.order_info_get key (brokerOrder.set_manual_fill o v)
        = Order.order_info_get key o)
  /\ (forall key,
        key <> "algo_comment" ->
        Order.order_info_get key (brokerOrder.set_algo_comment o v)
        = Order.order_info_get key o)
  /\ (forall key,
        key <> "broker_permid" ->
        Order.order_info_get key (brokerOrder.set_broker_permid o v)
        = Order.order_info_get key o)
  /\ (forall key,
        key <> "broker_clientid" ->
        Order.order_info_get key (brokerOrder.set_broker_clientid o v)
        = Order.order_info_get key o)
  /\ (forall key,
        key <> "broker_tempid" ->
        Order.order_info_get key (brokerOrder.set_broker_tempid o v)
        = Order.order_info_get key o)
  /\ (forall key,
        key <> "commission" ->
        Order.order_info_get key (brokerOrder.set_commission o v)
        = Order.order_info_get key o)
  /\ (forall key,
        key <> "leg_filled_price" ->
        Order.order_info_get key (brokerOrder.set_leg_filled_price o v)
        = Order.order_info_get key o).
Proof.
  repeat split;
    first [ apply order_info_get_set_eq
          | intros key Hne; by apply order_info_get_set_ne ].
Qed.

(** ** What the fill reconciliation leaves alone *)

Lemma reconcile_frame_refl o : reconcile_frame o o.
Proof. by repeat split. Qed.

Lemma reconcile_frame_trans o1 o2 o3 :
  reconcile_frame o1 o2 -> reconcile_frame o2 o3 -> reconcile_frame o1 o3.
Proof.
  intros (A1 & A2 & A3 & A4 & A5 & A6 & A7 & A8 & A9)
         (B1 & B2 & B3 & B4 & B5 & B6 & B7 & B8 & B9).
  repeat (split; [congruence |]).
  intros key Hkey. rewrite (B9 key Hkey). by apply A9.
Qed.

Lemma reconcile_frame_fill_order o q p d : reconcile_frame o (Order.fill_order o q p d).
Proof. by repeat split. Qed.

Lemma reconcile_frame_set key v o :
  key ∈ reconciled_keys -> reconcile_frame o (Order.order_info_set key v o).
Proof.
  intros Hkey. repeat (split; [reflexivity |]).
  intros key' Hkey'. unfold Order.order_info_set. simpl.
  rewrite lookup_insert_ne; [reflexivity |]. by intros ->.
Qed.

Lemma reconcile_frame_assign read write self0 self k :
  reconcile_frame self0 self ->
  (forall o v, reconcile_frame o (write o v)) ->
  (forall o, reconcile_frame self0 o -> reconcile_frame self0 (fst (k o))) ->
  reconcile_frame self0 (fst (brokerOrder.assign read write self k)).
Proof.
  intros Hself Hwrite Hk. unfold brokerOrder.assign.
  destruct read as [e | v]; simpl; [exact Hself |].
  apply Hk. eapply reconcile_frame_trans; [exact Hself | apply Hwrite].
Qed.

Ltac in_list := repeat first [apply list_elem_of_here | apply list_elem_of_further].

Lemma reconciled_key_commission : "commission" ∈ reconciled_keys.
Proof. unfold reconciled_keys. in_list. Qed.

Lemma reconciled_key_broker_permid : "broker_permid" ∈ reconciled_keys.
Proof. unfold reconciled_keys. in_list. Qed.

Lemma reconciled_key_algo_comment : "algo_comment" ∈ reconciled_keys.
Proof. unfold reconciled_keys. in_list. Qed.

Lemma reconciled_key_leg_filled_price : "leg_filled_price" ∈ reconciled_keys.
Proof. unfold reconciled_keys. in_list. Qed.

Lemma add_execution_details_frame self matched :
  reconcile_frame self
    (fst (brokerOrder.add_execution_details_from_matched_broker_order self matched)).
Proof.
  unfold brokerOrder.add_execution_details_from_matched_broker_order.
  destruct (negb _); simpl; [apply reconcile_frame_refl |].
  apply reconcile_frame_assign;
    [ apply reconcile_frame_fill_order
    | intros; apply reconcile_frame_set, reconciled_key_commission | intros o1 H1 ].
  apply reconcile_frame_assign;
    [ exact H1
    | intros; apply reconcile_frame_set, reconciled_key_broker_permid | intros o2 H2 ].
  apply reconcile_frame_assign;
    [ exact H2
    | intros; apply reconcile_frame_set, reconciled_key_algo_comment | intros o3 H3 ].
  apply reconcile_frame_assign;
    [ exact H3
    | intros; apply reconcile_frame_set, reconciled_key_leg_filled_price | intros o4 H4 ].
  exact H4.
Qed.

(** X2: whatever the matched order and however the call ends (success,
    fill_exceeds_trade, or a KeyError of a property of the matched
    order), the reconciliation changes nothing of the order but its
    fill, filled price, fill timestamp and the order_info entries
    commission, broker_permid, algo_comment and leg_filled_price: the
    trade, the tradeable object, the ids, the lock, the active flag, the
    order type and every other order_info entry are as before. *)
Theorem reconciliation_changes_only_fill_and_four_entries
    (self matched_broker_order : Order.t) :
  let after :=
    fst (brokerOrder.add_execution_details_from_matched_broker_order
           self matched_broker_order) in
  Order.tradeable_object after = Order.tradeable_object self
  /\ Order.trade after = Order.trade self
  /\ Order.locked after = Order.locked self
  /\ Order.order_id after = Order.order_id self
  /\ Order.parent after = Order.parent self
  /\ Order.children after = Order.children self
  /\ Order.active after = Order.active self
  /\ Order.order_type after = Order.order_type self
  /\ forall key,
       key <> "commission" -> key <> "broker_permid" ->
       key <> "algo_comment" -> key <> "leg_filled_price" ->
       Order.order_info_get key after = Order.order_info_get key self.
Proof.
  intros after.
  destruct (add_execution_details_frame self matched_broker_order)
    as (H1 & H2 & H3 & H4 & H5 & H6 & H7 & H8 & H9).
  repeat (split; [assumption |]).
  intros key Hc Hp Ha Hl. unfold Order.order_info_get.
  fold after in H9. rewrite H9; [reflexivity |].
  unfold reconciled_keys. intros Hin.
  repeat (apply elem_of_cons in Hin as [-> | Hin]; [congruence |]).
  by apply elem_of_nil in Hin.
Qed.

(** ** The keys of order_info *)

Lemma dom_order_info_set key v o :
  key ∈ dom (Order.order_info o) ->
  dom (Order.order_info (Order.order_info_set key v o)) = dom (Order.order_info o).
Proof.
  intros Hkey. unfold Order.order_info_set. simpl. rewrite dom_insert_L.
  apply subseteq_union_1_L. by apply singleton_subseteq_l.
Qed.

Lemma order_info_key_in (o : Order.t) key :
  dom (Order.order_info o) = list_to_set order_info_keys ->
  key ∈ order_info_keys -> key ∈ dom (Order.order_info o).
Proof. intros -> Hkey. by apply elem_of_list_to_set. Qed.

Lemma order_info_get_of_dom (o : Order.t) key :
  dom (Order.order_info o) = list_to_set order_info_keys ->
  key ∈ order_info_keys -> exists v, Order.order_info_get key o = ret v.
Proof.
  intros Hdom Hkey. pose proof (order_info_key_in o key Hdom Hkey) as Hin.
  apply elem_of_dom in Hin as [v Hv]. exists v.
  unfold Order.order_info_get. by rewrite Hv.
Qed.

Ltac order_info_key := unfold order_info_keys; in_list.

Lemma dom_assign read write self k :
  dom (Order.order_info self) = list_to_set order_info_keys ->
  (forall o v, dom (Order.order_info o) = list_to_set order_info_keys ->
               dom (Order.order_info (write o v)) = list_to_set order_info_keys) ->
  (forall o, dom (Order.order_info o) = list_to_set order_info_keys ->
             dom (Order.order_info (fst (k o))) = list_to_set order_info_keys) ->
  dom (Order.order_info (fst (brokerOrder.assign read write self k)))
  = list_to_set order_info_keys.
Proof.
  intros Hself Hwrite Hk. unfold brokerOrder.assign.
  destruct read as [e | v]; simpl; [exact Hself |]. by apply Hk, Hwrite.
Qed.

Lemma dom_set_order_info_key key v o :
  key ∈ order_info_keys ->
  dom (Order.order_info o) = list_to_set order_info_keys ->
  dom (Order.order_info (Order.order_info_set key v o)) = list_to_set order_info_keys.
Proof.
  intros Hkey Hdom. rewrite dom_order_info_set; [exact Hdom |].
  by apply order_info_key_in.
Qed.

Lemma dom_add_execution_details self matched :
  dom (Order.order_info self) = list_to_set order_info_keys ->
  dom (Order.order_info
         (fst (brokerOrder.add_execution_details_from_matched_broker_order self matched)))
  = list_to_set order_info_keys.
Proof.
  intros Hdom. unfold brokerOrder.add_execution_details_from_matched_broker_order.
  destruct (negb _); simpl; [exact Hdom |].
  apply dom_assign; [exact Hdom | | intros o1 H1].
  { intros o v. apply dom_set_order_info_key. order_info_key. }
  apply dom_assign; [exact H1 | | intros o2 H2].
  { intros o v. apply dom_set_order_info_key. order_info_key. }
  apply dom_assign; [exact H2 | | intros o3 H3].
  { intros o v. apply dom_set_order_info_key. order_info_key. }
  apply dom_assign; [exact H3 | | intros o4 H4].
  { intros o v. apply dom_set_order_info_key. order_info_key. }
  exact H4.
Qed.

Lemma dom_mutate o m :
  dom (Order.order_info o) = list_to_set order_info_keys ->
  dom (Order.order_info (mutate o m)) = list_to_set order_info_keys.
Proof.
  intros Hdom. destruct m; simpl;
    try (apply dom_set_order_info_key; [order_info_key | exact Hdom]);
    [exact Hdom | by apply dom_add_execution_details].
Qed.

Lemma dom_mutations ms : forall o,
  dom (Order.order_info o) = list_to_set order_info_keys ->
  dom (Order.order_info (foldl mutate o ms)) = list_to_set order_info_keys.
Proof.
  induction ms as [| m ms IH]; intros o Hdom; simpl; [exact Hdom |].
  by apply IH, dom_mutate.
Qed.

Section OrderInfoKeys.

Context `{BO : base_orders}.

Lemma dom_init args kw order :
  brokerOrder.init args kw = inr order ->
  dom (Order.order_info order) = list_to_set order_info_keys.
Proof.
  unfold brokerOrder.init. intros H.
  destruct (kw !! "self"); [discriminate |].
  apply bind_inr in H as (ka & _ & H). injection H as <-. simpl.
  rewrite !dom_insert_L, dom_empty_L. unfold order_info_keys. simpl.
  by rewrite !union_assoc_L, union_empty_r_L.
Qed.

(** X3: the order_info of an order the constructor returns has exactly
    the seventeen keys the constructor writes, and keeps exactly these
    after any sequence of setters, fill applications and
    reconciliations; so every property of such an order can be read, no
    getter raises a KeyError. *)
Theorem order_info_keys_are_kept
    (args : list pyval) (kw : gmap string pyval) (order : Order.t)
    (ms : list mutation) :
  brokerOrder.init args kw = inr order ->
  dom (Order.order_info (foldl mutate order ms)) = list_to_set order_info_keys
  /\ forall key, key ∈ order_info_keys ->
       exists v, Order.order_info_get key (foldl mutate order ms) = ret v.
Proof.
  intros Hinit.
  pose proof (dom_mutations ms order (dom_init _ _ _ Hinit)) as Hdom.
  split; [exact Hdom |]. intros key Hkey. by apply order_info_get_of_dom.
Qed.

(** X4: reconciling any order with a matched order that the
    constructor returned, whatever was done to it since, raises
    nothing: the call returns success when the matched fill is within
    the trade, and fill_exceeds_trade when it is not. *)
Theorem reconciliation_with_constructed_order_never_raises
    (args : list pyval) (kw : gmap string pyval) (built : Order.t)
    (ms : list mutation) (self : Order.t) :
  brokerOrder.init args kw = inr built ->
  let matched := foldl mutate built ms in
  snd (brokerOrder.add_execution_details_from_matched_broker_order self matched)
  = ret (if tradeQuantity.fill_less_than_or_equal_to_desired_trade
              (Order.trade self) (Order.fill matched)
         then success else fill_exceeds_trade).
Proof.
  intros Hinit matched.
  pose proof (dom_mutations ms built (dom_init _ _ _ Hinit)) as Hdom.
  fold matched in Hdom.
  unfold brokerOrder.add_execution_details_from_matched_broker_order.
  destruct (tradeQuantity.fill_less_than_or_equal_to_desired_trade _ _);
    simpl; [| reflexivity].
  destruct (order_info_get_of_dom matched "commission" Hdom) as [c Hc];
    [order_info_key |].
  destruct (order_info_get_of_dom matched "broker_permid" Hdom) as [p Hp];
    [order_info_key |].
  destruct (order_info_get_of_dom matched "algo_comment" Hdom) as [a Ha];
    [order_info_key |].
  destruct (order_info_get_of_dom matched "leg_filled_price" Hdom) as [l Hl];
    [order_info_key |].
  unfold brokerOrder.commission, brokerOrder.broker_permid,
    brokerOrder.algo_comment, brokerOrder.leg_filled_price.
  rewrite Hc, Hp, Ha, Hl. reflexivity.
Qed.

End OrderInfoKeys.

Lemma order_info_keys_witness :
  brokerOrder.init (BO := spec_base_orders) [key_201003; PyInt 10] kw_A = inr order_A
  /\ exists v,
       brokerOrder.commission
         (foldl mutate order_A
            [SetCommission (PyFloat 2.3); AddExecutionDetails order_overfilled;
             SetLegFilledPrice (PyList [])]) = ret v.
Proof.
  assert (H : brokerOrder.init (BO := spec_base_orders) [key_201003; PyInt 10] kw_A
              = inr order_A) by (vm_compute; reflexivity).
  split; [exact H |].
  destruct (order_info_keys_are_kept (BO := spec_base_orders) _ _ _
              [SetCommission (PyFloat 2.3); AddExecutionDetails order_overfilled;
               SetLegFilledPrice (PyList [])] H) as [_ Hget].
  apply (Hget "commission"). order_info_key.
Defined.

Lemma reconciliation_never_raises_witness :
  brokerOrder.init (BO := spec_base_orders) [key_201003; PyInt 10] kw_matched
    = inr order_matched
  /\ snd (brokerOrder.add_execution_details_from_matched_broker_order order_A
            (foldl mutate order_matched [SetAlgoComment (PyStr "Aggressive")]))
     = ret success.
Proof.
  assert (H : brokerOrder.init (BO := spec_base_orders) [key_201003; PyInt 10] kw_matched
              = inr order_matched) by (vm_compute; reflexivity).
  split; [exact H |].
  exact (reconciliation_with_constructed_order_never_raises
           (BO := spec_base_orders) _ _ _
           [SetAlgoComment (PyStr "Aggressive")] order_A H).
Defined.

(** ** Repeated reconciliation *)

(** X5: a reconciliation that is accepted and can read the four
    properties of its matched order overwrites whatever an earlier
    reconciliation left: after any earlier call, with any matched order
    and any outcome, the order and the result are those of the later
    call alone.  In particular reconciling twice with the same matched
    order is reconciling once. *)
Theorem later_reconciliation_overwrites_earlier
    (self earlier matched : Order.t) (c p a l : pyval) :
  tradeQuantity.fill_less_than_or_equal_to_desired_trade
    (Order.trade self) (Order.fill matched) = true ->
  brokerOrder.commission matched = ret c ->
  brokerOrder.broker_permid matched = ret p ->
  brokerOrder.algo_comment matched = ret a ->
  brokerOrder.leg_filled_price matched = ret l ->
  brokerOrder.add_execution_details_from_matched_broker_order
    (fst (brokerOrder.add_execution_details_from_matched_broker_order self earlier))
    matched
  = brokerOrder.add_execution_details_from_matched_broker_order self matched.
Proof.
  intros Hok Hc Hp Ha Hl.
  destruct (add_execution_details_frame self earlier)
    as (F1 & F2 & F3 & F4 & F5 & F6 & F7 & F8 & F9).
  set (self' := fst (brokerOrder.add_execution_details_from_matched_broker_order
                       self earlier)) in *.
  unfold brokerOrder.add_execution_details_from_matched_broker_order.
  rewrite F2, Hok, Hc, Hp, Ha, Hl. simpl.
  unfold brokerOrder.set_leg_filled_price, brokerOrder.set_algo_comment,
    brokerOrder.set_broker_permid, brokerOrder.set_commission,
    Order.order_info_set, Order.fill_order. simpl.
  f_equal. rewrite F1, F2, F3, F4, F5, F6, F7, F8. f_equal.
  apply map_eq. intros key. rewrite !lookup_insert.
  repeat case_decide; try reflexivity.
  apply F9. unfold reconciled_keys. intros Hin.
  repeat (apply elem_of_cons in Hin as [-> | Hin]; [congruence |]).
  by apply elem_of_nil in Hin.
Qed.

Lemma later_reconciliation_witness :
  (tradeQuantity.fill_less_than_or_equal_to_desired_trade
     (Order.trade order_A) (Order.fill order_matched) = true
   /\ brokerOrder.commission order_matched = ret (PyFloat 2.3)
   /\ brokerOrder.broker_permid order_matched = ret (PyStr "permid 7")
   /\ brokerOrder.algo_comment order_matched = ret (PyStr "Passive")
   /\ brokerOrder.leg_filled_price order_matched = ret (PyList [PyFloat 101.5]))
  /\ brokerOrder.add_execution_details_from_matched_broker_order
       (fst (brokerOrder.add_execution_details_from_matched_broker_order
               order_A order_matched))
       order_matched
     = brokerOrder.add_execution_details_from_matched_broker_order order_A order_matched.
Proof.
  split; [repeat split; reflexivity |].
  apply (later_reconciliation_overwrites_earlier order_A order_matched order_matched
           (PyFloat 2.3) (PyStr "permid 7") (PyStr "Passive") (PyList [PyFloat 101.5]));
    reflexivity.
Defined.

(** X6: on every accepted reconciliation whose matched order has the
    four properties, the call returns success, the order's fill, filled
    price and fill timestamp are the matched order's, commission, broker
    permanent id and algo comment are copied, and leg_filled_price reads
    as the builtin class [list]: it differs from the matched order's
    leg_filled_price whenever that is a list of prices. *)
Theorem accepted_reconciliation_copies_all_but_leg_prices
    (self matched : Order.t) (c p a l : pyval) :
  tradeQuantity.fill_less_than_or_equal_to_desired_trade
    (Order.trade self) (Order.fill matched) = true ->
  brokerOrder.commission matched = ret c ->
  brokerOrder.broker_permid matched = ret p ->
  brokerOrder.algo_comment matched = ret a ->
  brokerOrder.leg_filled_price matched = ret l ->
  let r := brokerOrder.add_execution_details_from_matched_broker_order self matched in
  snd r = ret success
  /\ Order.fill (fst r) = Order.fill matched
  /\ Order.filled_price (fst r) = Order.filled_price matched
  /\ Order.fill_datetime (fst r) = Order.fill_datetime matched
  /\ brokerOrder.commission (fst r) = ret c
  /\ brokerOrder.broker_permid (fst r) = ret p
  /\ brokerOrder.algo_comment (fst r) = ret a
  /\ brokerOrder.leg_filled_price (fst r) = ret PyBuiltinList
  /\ (forall prices, l = PyList prices ->
        brokerOrder.leg_filled_price (fst r) <> brokerOrder.leg_filled_price matched).
Proof.
  intros Hok Hc Hp Ha Hl r.
  destruct (accepted_fill_applied self matched c p a l Hok Hc Hp Ha Hl)
    as (H1 & H2 & H3 & H4 & H5 & H6 & H7 & H8).
  fold r in H1, H2, H3, H4, H5, H6, H7, H8.
  repeat (split; [assumption |]).
  intros prices ->. rewrite H8, Hl. discriminate.
Qed.

Lemma accepted_reconciliation_witness :
  (tradeQuantity.fill_less_than_or_equal_to_desired_trade
     (Order.trade order_A) (Order.fill order_matched) = true
   /\ brokerOrder.commission order_matched = ret (PyFloat 2.3)
   /\ brokerOrder.broker_permid order_matched = ret (PyStr "permid 7")
   /\ brokerOrder.algo_comment order_matched = ret (PyStr "Passive")
   /\ brokerOrder.leg_filled_price order_matched = ret (PyList [PyFloat 101.5]))
  /\ Order.fill
       (fst (brokerOrder.add_execution_details_from_matched_broker_order
               order_A order_matched)) = [10%Z]
  /\ brokerOrder.commission
       (fst (brokerOrder.add_execution_details_from_matched_broker_order
               order_A order_matched)) = ret (PyFloat 2.3).
Proof.
  split; [repeat split; reflexivity |].
  destruct (accepted_reconciliation_copies_all_but_leg_prices order_A order_matched
              (PyFloat 2.3) (PyStr "permid 7") (PyStr "Passive") (PyList [PyFloat 101.5]))
    as (_ & Hfill & _ & _ & Hcomm & _);
    [reflexivity | reflexivity | reflexivity | reflexivity | reflexivity |].
  split; [exact Hfill | exact Hcomm].
Defined.

(** ** Keywords and persisted entries *)

Section KeywordAgreement.

Context `{BO : base_orders}.

(** The constructor reads its keywords through the named parameters,
    and [self], only. *)
Lemma init_kw_agree args (kw1 kw2 : gmap string pyval) :
  (forall name, name ∈ keyword_parameters -> kw1 !! name = kw2 !! name) ->
  kw1 !! "self" = kw2 !! "self" ->
  brokerOrder.init args kw1 = brokerOrder.init args kw2.
Proof.
  intros Hagree Hself.
  assert (Hk : forall name dflt, name ∈ keyword_parameters ->
                 kwarg kw1 name dflt = kwarg kw2 name dflt).
  { intros name dflt Hname. unfold kwarg. by rewrite (Hagree name Hname). }
  unfold brokerOrder.init. rewrite Hself.
  rewrite !Hk by (unfold keyword_parameters; in_list).
  reflexivity.
Qed.

Lemma pop_insert_ne key k v (d : gmap string pyval) :
  k <> key ->
  pop key (<[k := v]> d)
  = (match pop key d with
     | inl e => inl e
     | inr (x, d') => inr (x, <[k := v]> d')
     end).
Proof.
  intros Hne. unfold pop. rewrite lookup_insert_ne by exact Hne.
  destruct (d !! key); simpl; [| reflexivity].
  by rewrite delete_insert_ne.
Qed.

Lemma from_dict_inr_init d order :
  brokerOrder.from_dict d = inr order ->
  exists args kw, brokerOrder.init args kw = inr order.
Proof.
  unfold brokerOrder.from_dict. intros H.
  repeat lazymatch type of H with
  | bind (pop ?k ?m) _ = inr _ =>
      let Hp := fresh "Hp" in
      apply bind_inr in H as ([? ?] & Hp & H)
  end.
  unfold pop_default in H. simpl in H. eauto.
Qed.

(** X7: an entry of the persisted dictionary whose key is neither
    'trade' nor 'key' nor 'self' nor a keyword parameter of the
    constructor has no effect on what [from_dict] returns, whether it is
    added, changed or removed.  A stored 'calendar_spread_order' is such
    an entry: the flag of the order read back is computed from the
    length of its trade. *)
Theorem from_dict_ignores_entries_outside_parameters
    (d : gmap string pyval) (k : string) (v : pyval) :
  k ∉ keyword_parameters -> k <> "trade" -> k <> "key" -> k <> "self" ->
  brokerOrder.from_dict (<[k := v]> d) = brokerOrder.from_dict d
  /\ brokerOrder.from_dict (delete k d) = brokerOrder.from_dict d
  /\ ("calendar_spread_order" ∉ keyword_parameters)
  /\ (forall order, brokerOrder.from_dict d = inr order ->
        brokerOrder.calendar_spread_order order
        = ret (PyBool (negb (length (Order.trade order) =? 1)%nat))).
Proof.
  intros Hk Htrade Hkey Hself.
  assert (Hparam : forall name, name ∈ keyword_parameters -> k <> name)
    by (intros name Hname ->; by apply Hk).
  assert (Hins : forall d' v', brokerOrder.from_dict (<[k := v']> d')
                               = brokerOrder.from_dict d').
  { intros d' v'. unfold brokerOrder.from_dict.
    repeat lazymatch goal with
    | |- context [pop ?key (<[k := v']> ?m)] =>
        rewrite (pop_insert_ne key k v' m)
          by first [ assumption
                   | apply Hparam; unfold keyword_parameters; in_list ];
        destruct (pop key m) as [e | [? ?]]; simpl; [reflexivity |]
    end.
    unfold pop_default, kwarg.
    rewrite lookup_insert_ne
      by (apply Hparam; unfold keyword_parameters; in_list).
    rewrite delete_insert_ne
      by (apply not_eq_sym, Hparam; unfold keyword_parameters; in_list).
    apply init_kw_agree.
    - intros name Hname.
      rewrite !lookup_insert. repeat case_decide; try reflexivity.
      by destruct (Hparam name Hname).
    - rewrite !lookup_insert_ne by done. reflexivity. }
  split; [apply Hins |].
  split.
  { destruct (d !! k) as [x |] eqn:Hdk.
    - rewrite <- (insert_delete_id d k x Hdk) at 2. symmetry. apply Hins.
    - by rewrite delete_id. }
  split.
  { unfold keyword_parameters. intros Hin.
    repeat (apply elem_of_cons in Hin as [Hin | Hin]; [discriminate |]).
    by apply elem_of_nil in Hin. }
  intros order Horder. apply from_dict_inr_init in Horder as (args & kw & Hinit).
  by eapply init_calendar_spread_order.
Qed.

End KeywordAgreement.

Lemma from_dict_ignores_witness :
  (("calendar_spread_order" ∉ keyword_parameters)
   /\ "calendar_spread_order" <> "trade" /\ "calendar_spread_order" <> "key"
   /\ "calendar_spread_order" <> "self")
  /\ brokerOrder.from_dict (BO := spec_base_orders)
       (<["calendar_spread_order" := PyBool true]> dict_A)
     = brokerOrder.from_dict (BO := spec_base_orders) dict_A.
Proof.
  assert (Hout : "calendar_spread_order" ∉ keyword_parameters).
  { unfold keyword_parameters. intros Hin.
    repeat (apply elem_of_cons in Hin as [Hin | Hin]; [discriminate |]).
    by apply elem_of_nil in Hin. }
  split; [repeat split; [exact Hout | discriminate | discriminate | discriminate] |].
  exact (proj1 (from_dict_ignores_entries_outside_parameters
                  (BO := spec_base_orders) dict_A "calendar_spread_order"
                  (PyBool true) Hout ltac:(discriminate) ltac:(discriminate)
                  ltac:(discriminate))).
Defined.

Lemma pop_present key (d : gmap string pyval) x :
  d !! key = Some x -> pop key d = inr (x, delete key d).
Proof. unfold pop. by intros ->. Qed.

Section MissingKeys.

Context `{BO : base_orders}.

(** X8: [from_dict] pops ten keys without a default, in the order
    trade, key, fill, filled_price, fill_datetime, locked, order_id,
    parent, children, active; on a dictionary that lacks one of them
    the call raises the KeyError of the first one it lacks, whatever
    else the dictionary holds, and no order is built. *)
Theorem from_dict_raises_KeyError_of_first_missing_key
    (d : gmap string pyval) (pre post : list string) (k : string) :
  required_keys = (pre ++ k :: post)%list ->
  Forall (fun key => is_Some (d !! key)) pre ->
  d !! k = None ->
  brokerOrder.from_dict d = raise (KeyError k).
Proof.
  intros Heq Hpre Hk. unfold required_keys in Heq. unfold brokerOrder.from_dict.
  repeat
    (let s := fresh "s" in
     let Hs := fresh "Hs" in
     let Hv := fresh "Hv" in
     destruct pre as [| s pre]; simpl in Heq;
     [ injection Heq as Hs _; subst k;
       lazymatch goal with
       | |- context [pop ?key ?m] =>
           rewrite (pop_absent key m)
             by (rewrite ?lookup_delete_ne by done; exact Hk)
       end; reflexivity
     | injection Heq as Hs Heq; subst s;
       apply Forall_cons in Hpre as [[? Hv] Hpre];
       lazymatch goal with
       | |- context [pop ?key ?m] =>
           rewrite (pop_present key m _
                      ltac:(rewrite ?lookup_delete_ne by done; exact Hv))
       end; simpl ]).
  destruct pre; simpl in Heq; discriminate.
Qed.

End MissingKeys.

Lemma from_dict_missing_key_witness :
  (required_keys
   = (["trade"; "key"; "fill"] ++ "filled_price"
        :: ["fill_datetime"; "locked"; "order_id"; "parent"; "children"; "active"])%list
   /\ Forall (fun key => is_Some (delete "filled_price" dict_A !! key))
        ["trade"; "key"; "fill"]
   /\ delete "filled_price" dict_A !! "filled_price" = None)
  /\ brokerOrder.from_dict (BO := spec_base_orders) (delete "filled_price" dict_A)
     = raise (KeyError "filled_price").
Proof.
  assert (Hpre : Forall (fun key => is_Some (delete "filled_price" dict_A !! key))
                   ["trade"; "key"; "fill"]).
  { repeat constructor; vm_compute; eauto. }
  split; [split; [reflexivity | split; [exact Hpre | reflexivity]] |].
  exact (from_dict_raises_KeyError_of_first_missing_key (BO := spec_base_orders)
           (delete "filled_price" dict_A) ["trade"; "key"; "fill"]
           ["fill_datetime"; "locked"; "order_id"; "parent"; "children"; "active"]
           "filled_price" eq_refl Hpre eq_refl).
Defined.

(** ** The price resolver *)

Section PriceResolver.

Context `{BO : base_orders}.

Import brokerOrderKeyArguments.

Lemma calculate_inr_inv trade lfp mp sp op original lfp' mp' sp' op' :
  calculate_prices_with_possible_legs trade lfp mp sp op original
    = inr (lfp', mp', sp', op') ->
  resolve_multi_leg_price_to_single_price trade mp = inr mp'
  /\ resolve_multi_leg_price_to_single_price trade sp = inr sp'
  /\ resolve_multi_leg_price_to_single_price trade op = inr op'.
Proof.
  unfold calculate_prices_with_possible_legs. intros H.
  apply bind_inr in H as (l & _ & H).
  apply bind_inr in H as (m & Hm & H).
  apply bind_inr in H as (s & Hs & H).
  apply bind_inr in H as (o & Ho & H).
  injection H as _ <- <- <-. by repeat split.
Qed.

Lemma calculate_scalar trade lfp mp sp op original lfp' mp' sp' op' :
  type_is_float original = true \/ is_None original = true ->
  calculate_prices_with_possible_legs trade lfp mp sp op original
    = inr (lfp', mp', sp', op') ->
  lfp' = lfp.
Proof.
  unfold calculate_prices_with_possible_legs. intros Hscalar H.
  apply bind_inr in H as (l & Hl & H).
  apply bind_inr in H as (m & _ & H).
  apply bind_inr in H as (s & _ & H).
  apply bind_inr in H as (o & _ & H).
  injection H as <- _ _ _.
  destruct Hscalar as [Hf | Hn].
  - rewrite Hf in Hl. by injection Hl.
  - rewrite Hn in Hl. destruct (type_is_float original); by injection Hl.
Qed.

Lemma calculate_not_iterable trade lfp mp sp op original :
  py_eq_empty_list lfp = true ->
  type_is_float original = false ->
  is_None original = false ->
  py_list original = raise TypeError ->
  calculate_prices_with_possible_legs trade lfp mp sp op original = raise TypeError.
Proof.
  intros Hempty Hf Hn Hl. unfold calculate_prices_with_possible_legs, copy.
  by rewrite Hf, Hn, Hempty, Hl.
Qed.

(** A call that returns an order, with what the order holds of each
    stage. *)
Lemma init_inr_prices args kw order :
  brokerOrder.init args kw = inr order ->
  exists (raw : t pyval) rt rf rp lfp mp sp op,
    split_broker_order_args args
      (kwarg kw "fill" PyNone) (kwarg kw "filled_price" PyNone)
      (kwarg kw "leg_filled_price" (PyList []))
      (kwarg kw "mid_price" PyNone) (kwarg kw "side_price" PyNone)
      (kwarg kw "offside_price" PyNone) = inr raw
    /\ resolve_inputs_to_order (trade raw) (kwarg kw "fill" PyNone)
         (kwarg kw "filled_price" PyNone) = inr (rt, rf, rp)
    /\ calculate_prices_with_possible_legs rt
         (kwarg kw "leg_filled_price" (PyList []))
         (kwarg kw "mid_price" PyNone) (kwarg kw "side_price" PyNone)
         (kwarg kw "offside_price" PyNone) (kwarg kw "filled_price" PyNone)
       = inr (lfp, mp, sp, op)
    /\ Order.filled_price order = rp
    /\ brokerOrder.leg_filled_price order = ret lfp
    /\ brokerOrder.mid_price order = ret mp
    /\ brokerOrder.side_price order = ret sp
    /\ brokerOrder.offside_price order = ret op.
Proof.
  unfold brokerOrder.init, from_broker_order_args_to_resolved_args. intros H.
  destruct (kw !! "self"); [discriminate |].
  apply bind_inr in H as (sorted & Hpipe & H).
  apply bind_inr in Hpipe as (raw & Hsplit & Hpipe).
  apply bind_inr in Hpipe as (resolved & Hres & Hsort).
  injection H as <-.
  destruct (split_inr_fields _ _ _ _ _ _ _ _ Hsplit)
    as (Hf & Hfp & Hleg & Hm & Hs & Ho).
  apply resolve_inr_inv in Hres
    as (rt & rf & rp & lfp & mp & sp & op & Hnorm & Hcalc & ->).
  rewrite Hf, Hfp in Hnorm. rewrite Hfp, Hleg, Hm, Hs, Ho in Hcalc.
  destruct (sort_keeps_prices _ _ Hsort) as (Sfp & Sleg & Sm & Ss & So).
  simpl in Sfp, Sleg, Sm, Ss, So.
  exists raw, rt, rf, rp, lfp, mp, sp, op.
  split; [exact Hsplit |]. split; [exact Hnorm |]. split; [exact Hcalc |].
  unfold brokerOrder.leg_filled_price, brokerOrder.mid_price,
    brokerOrder.side_price, brokerOrder.offside_price, Order.order_info_get.
  simpl. rewrite Sfp, Sleg, Sm, Ss, So. by repeat split.
Qed.

(** X9: a filled price that is neither a float, nor None, nor iterable
    (an integer, for one) makes the price resolver raise a TypeError
    when no leg_filled_price is given, before the mid, side and offside
    prices are looked at; no construction call with such a filled price
    returns an order, and the TypeError is its exception whenever the
    argument splitter and [resolve_inputs_to_order] return. *)
Theorem non_iterable_filled_price_raises_TypeError
    (args : list pyval) (kw : gmap string pyval) (original : pyval) :
  kw !! "filled_price" = Some original ->
  type_is_float original = false ->
  is_None original = false ->
  py_list original = raise TypeError ->
  py_eq_empty_list (kwarg kw "leg_filled_price" (PyList [])) = true ->
  (forall trade lfp mp sp op,
     py_eq_empty_list lfp = true ->
     calculate_prices_with_possible_legs trade lfp mp sp op original
     = raise TypeError)
  /\ (forall order, brokerOrder.init args kw <> inr order)
  /\ (forall (raw : t pyval) normalised,
        split_broker_order_args args
          (kwarg kw "fill" PyNone) original
          (kwarg kw "leg_filled_price" (PyList []))
          (kwarg kw "mid_price" PyNone) (kwarg kw "side_price" PyNone)
          (kwarg kw "offside_price" PyNone) = inr raw ->
        resolve_inputs_to_order (trade raw) (fill raw) original = inr normalised ->
        brokerOrder.init args kw = raise TypeError).
Proof.
  intros Hfp Hf Hn Hl Hempty.
  assert (Hkfp : kwarg kw "filled_price" PyNone = original)
    by (unfold kwarg; by rewrite Hfp).
  split; [intros; by apply calculate_not_iterable |].
  split.
  - intros order Hinit.
    apply init_inr_prices in Hinit
      as (raw & rt & rf & rp & lfp & mp & sp & op & _ & _ & Hcalc & _).
    rewrite Hkfp in Hcalc.
    rewrite calculate_not_iterable in Hcalc by assumption. discriminate.
  - intros raw [[rt rf] rp] Hsplit Hnorm.
    destruct (split_inr_fields _ _ _ _ _ _ _ _ Hsplit) as (_ & Hrfp & Hrleg & _).
    unfold brokerOrder.init, from_broker_order_args_to_resolved_args.
    destruct (kw !! "self"); [reflexivity |].
    rewrite Hkfp, Hsplit. simpl.
    unfold resolve_inputs_to_order_with_key_arguments, copy.
    rewrite Hrfp, Hnorm. simpl. rewrite Hrleg.
    by rewrite calculate_not_iterable.
Qed.

(** X10: when the filled price of the call is a float or None (given or
    by default), the leg_filled_price of the order built is the keyword
    as given, the empty list when there is none: it is neither derived
    from the filled price nor reordered by the sort pass. *)
Theorem scalar_filled_price_keeps_leg_filled_price
    (args : list pyval) (kw : gmap string pyval) (order : Order.t) :
  type_is_float (kwarg kw "filled_price" PyNone) = true
  \/ is_None (kwarg kw "filled_price" PyNone) = true ->
  brokerOrder.init args kw = inr order ->
  brokerOrder.leg_filled_price order
  = ret (kwarg kw "leg_filled_price" (PyList [])).
Proof.
  intros Hscalar Hinit.
  apply init_inr_prices in Hinit
    as (raw & rt & rf & rp & lfp & mp & sp & op & _ & _ & Hcalc & _ & Hleg & _).
  by rewrite Hleg, (calculate_scalar _ _ _ _ _ _ _ _ _ _ Hscalar Hcalc).
Qed.

(** X11: the mid, side and offside prices of an order the constructor
    returns are what [resolve_multi_leg_price_to_single_price] makes of
    the keyword given (None by default) and the trade as
    [resolve_inputs_to_order] returned it, that is before the sort pass
    reorders the legs; the filled price of the order is the one
    [resolve_inputs_to_order] returned. *)
Theorem submission_prices_are_reduced_on_unsorted_trade
    (args : list pyval) (kw : gmap string pyval) (order : Order.t) :
  brokerOrder.init args kw = inr order ->
  exists (raw : t pyval) resolved_trade resolved_fill,
    split_broker_order_args args
      (kwarg kw "fill" PyNone) (kwarg kw "filled_price" PyNone)
      (kwarg kw "leg_filled_price" (PyList []))
      (kwarg kw "mid_price" PyNone) (kwarg kw "side_price" PyNone)
      (kwarg kw "offside_price" PyNone) = inr raw
    /\ resolve_inputs_to_order (trade raw) (kwarg kw "fill" PyNone)
         (kwarg kw "filled_price" PyNone)
       = inr (resolved_trade, resolved_fill, Order.filled_price order)
    /\ brokerOrder.mid_price order
       = resolve_multi_leg_price_to_single_price resolved_trade
           (kwarg kw "mid_price" PyNone)
    /\ brokerOrder.side_price order
       = resolve_multi_leg_price_to_single_price resolved_trade
           (kwarg kw "side_price" PyNone)
    /\ brokerOrder.offside_price order
       = resolve_multi_leg_price_to_single_price resolved_trade
           (kwarg kw "offside_price" PyNone).
Proof.
  intros Hinit.
  apply init_inr_prices in Hinit
    as (raw & rt & rf & rp & lfp & mp & sp & op
        & Hsplit & Hnorm & Hcalc & Hfp & _ & Hm & Hs & Ho).
  destruct (calculate_inr_inv _ _ _ _ _ _ _ _ _ _ Hcalc) as (Rm & Rs & Ro).
  exists raw, rt, rf. rewrite Hfp, Hm, Hs, Ho, Rm, Rs, Ro. by repeat split.
Qed.

End PriceResolver.

Lemma non_iterable_filled_price_witness :
  (kw_integer_price !! "filled_price" = Some (PyInt 101)
   /\ type_is_float (PyInt 101) = false
   /\ is_None (PyInt 101) = false
   /\ py_list (PyInt 101) = raise TypeError
   /\ py_eq_empty_list (kwarg kw_integer_price "leg_filled_price" (PyList [])) = true)
  /\ calculate_prices_with_possible_legs (BO := spec_base_orders)
       [10%Z] (PyList []) PyNone PyNone PyNone (PyInt 101) = raise TypeError.
Proof.
  split; [repeat split; reflexivity |].
  destruct (non_iterable_filled_price_raises_TypeError (BO := spec_base_orders)
              [key_201003; PyInt 10] kw_integer_price (PyInt 101))
    as (Hcalc & _);
    [reflexivity | reflexivity | reflexivity | reflexivity | reflexivity |].
  by apply Hcalc.
Defined.

Lemma scalar_filled_price_witness :
  (type_is_float (kwarg kw_matched "filled_price" PyNone) = true
   \/ is_None (kwarg kw_matched "filled_price" PyNone) = true)
  /\ brokerOrder.init (BO := spec_base_orders) [key_201003; PyInt 10] kw_matched
     = inr order_matched
  /\ brokerOrder.leg_filled_price order_matched = ret (PyList [PyFloat 101.5]).
Proof.
  assert (H : brokerOrder.init (BO := spec_base_orders) [key_201003; PyInt 10] kw_matched
              = inr order_matched) by (vm_compute; reflexivity).
  split; [left; reflexivity |]. split; [exact H |].
  exact (scalar_filled_price_keeps_leg_filled_price (BO := spec_base_orders)
           [key_201003; PyInt 10] kw_matched order_matched
           (or_introl eq_refl) H).
Defined.

Lemma submission_prices_witness :
  brokerOrder.init (BO := spec_base_orders) [key_201003; PyInt 10] kw_A = inr order_A
  /\ exists resolved_trade,
       brokerOrder.mid_price order_A
       = collapse_price resolved_trade (kwarg kw_A "mid_price" PyNone).
Proof.
  assert (H : brokerOrder.init (BO := spec_base_orders) [key_201003; PyInt 10] kw_A
              = inr order_A) by (vm_compute; reflexivity).
  split; [exact H |].
  destruct (submission_prices_are_reduced_on_unsorted_trade
              (BO := spec_base_orders) _ _ _ H)
    as (raw & rt & rf & _ & _ & Hmid & _).
  exists rt. exact Hmid.
Defined.

(** ** The factory *)

Section FactoryProperties.

Context `{BO : base_orders}.

(** What the order holds of the keywords that the constructor passes on
    unchanged. *)
Lemma init_inr_keywords args kw order :
  brokerOrder.init args kw = inr order ->
  Order.locked order = kwarg kw "locked" (PyBool false)
  /\ Order.active order = kwarg kw "active" (PyBool true)
  /\ Order.fill_datetime order = kwarg kw "fill_datetime" PyNone
  /\ brokerOrder.algo_used order = ret (kwarg kw "algo_used" (PyStr ""))
  /\ brokerOrder.algo_comment order = ret (kwarg kw "algo_comment" (PyStr ""))
  /\ brokerOrder.limit_price order = ret (kwarg kw "limit_price" PyNone)
  /\ brokerOrder.submit_datetime order = ret (kwarg kw "submit_datetime" PyNone)
  /\ brokerOrder.broker order = ret (kwarg kw "broker" (PyStr ""))
  /\ brokerOrder.broker_account order = ret (kwarg kw "broker_account" (PyStr ""))
  /\ brokerOrder.broker_clientid order = ret (kwarg kw "broker_clientid" (PyStr ""))
  /\ brokerOrder.broker_permid order = ret (kwarg kw "broker_permid" (PyStr ""))
  /\ brokerOrder.broker_tempid order = ret (kwarg kw "broker_tempid" (PyStr ""))
  /\ brokerOrder.commission order = ret (kwarg kw "commission" (PyFloat 0.0))
  /\ Order.order_info_get "roll_order" order
     = ret (kwarg kw "roll_order" (PyBool false))
  /\ Order.order_info_get "manual_fill" order
     = ret (kwarg kw "manual_fill" (PyBool false)).
Proof.
  unfold brokerOrder.init. intros H.
  destruct (kw !! "self"); [discriminate |].
  apply bind_inr in H as (ka & _ & H). injection H as <-. by repeat split.
Qed.

(** X12: the broker order the factory builds from a contract order has
    the contract order's id as its parent, its algo as algo_used, its
    roll and manual-fill flags, and the submission context the caller
    gave; it has no id and no children yet (the sentinels), is active
    and unlocked, has no fill timestamp, a commission of 0.0 and an
    empty leg_filled_price. *)
Theorem factory_order_from_contract_order
    (contract_order : contractOrder.t)
    (order_type limit_price submit_datetime side_price mid_price offside_price
     algo_comment broker broker_account broker_clientid broker_permid
     broker_tempid : pyval) (order : Order.t) :
  create_new_broker_order_from_contract_order contract_order order_type
    limit_price submit_datetime side_price mid_price offside_price algo_comment
    broker broker_account broker_clientid broker_permid broker_tempid
  = inr order ->
  Order.parent order = contractOrder.order_id contract_order
  /\ Order.order_id order = no_order_id
  /\ Order.children order = no_children
  /\ Order.order_type order = order_type
  /\ Order.locked order = PyBool false
  /\ Order.active order = PyBool true
  /\ Order.fill_datetime order = PyNone
  /\ brokerOrder.algo_used order = ret (contractOrder.algo_to_use contract_order)
  /\ Order.order_info_get "roll_order" order
     = ret (contractOrder.roll_order contract_order)
  /\ Order.order_info_get "manual_fill" order
     = ret (contractOrder.manual_fill contract_order)
  /\ brokerOrder.limit_price order = ret limit_price
  /\ brokerOrder.submit_datetime order = ret submit_datetime
  /\ brokerOrder.algo_comment order = ret algo_comment
  /\ brokerOrder.broker order = ret broker
  /\ brokerOrder.broker_account order = ret broker_account
  /\ brokerOrder.broker_clientid order = ret broker_clientid
  /\ brokerOrder.broker_permid order = ret broker_permid
  /\ brokerOrder.broker_tempid order = ret broker_tempid
  /\ brokerOrder.commission order = ret (PyFloat 0.0)
  /\ brokerOrder.leg_filled_price order = ret (PyList []).
Proof.
  unfold create_new_broker_order_from_contract_order. intros Hinit.
  destruct (init_inr_bookkeeping _ _ _ Hinit) as (Hid & Hpar & Hchi & Hty).
  destruct (init_inr_keywords _ _ _ Hinit)
    as (K1 & K2 & K3 & K4 & K5 & K6 & K7 & K8 & K9 & K10 & K11 & K12 & K13 & K14 & K15).
  apply init_inr_prices in Hinit
    as (raw & rt & rf & rp & lfp & mp & sp & op & _ & _ & Hcalc & _ & Hleg & _).
  apply calculate_scalar in Hcalc; [| right; reflexivity].
  rewrite Hid, Hpar, Hchi, Hty, K1, K2, K3, K4, K5, K6, K7, K8, K9, K10, K11,
    K12, K13, K14, K15, Hleg, Hcalc.
  repeat split.
Qed.

End FactoryProperties.

Lemma factory_witness :
  exists order,
    create_new_broker_order_from_contract_order (BO := spec_base_orders)
      contract_order_7 (brokerOrderType (PyStr "limit")) (PyFloat 101.5)
      (PyDatetime 1700000000) PyNone PyNone PyNone (PyStr "Passive") (PyStr "IB")
      (PyStr "U1") (PyStr "1") (PyStr "") (PyStr "") = inr order
    /\ Order.parent order = PyInt 7
    /\ Order.trade order = [10%Z].
Proof.
  eexists. split; [vm_compute; reflexivity |]. split; [| reflexivity].
  match goal with
  | |- Order.parent ?o = _ =>
      exact (proj1 (factory_order_from_contract_order (BO := spec_base_orders)
                      contract_order_7 (brokerOrderType (PyStr "limit"))
                      (PyFloat 101.5) (PyDatetime 1700000000) PyNone PyNone PyNone
                      (PyStr "Passive") (PyStr "IB") (PyStr "U1") (PyStr "1")
                      (PyStr "") (PyStr "") o ltac:(vm_compute; reflexivity)))
  end.
Defined.

(** ** The sort pass on sorted legs *)

Lemma insertion_of_ascending (key : nat -> string) (n a : nat) :
  (forall i, a <= i -> S i < a + n -> String.leb (key i) (key (S i)) = true) ->
  foldr (futuresContractStrategy.insert_idx key) [] (seq a n) = seq a n.
Proof.
  revert a. induction n as [| n IH]; intros a Hasc; simpl; [reflexivity |].
  rewrite IH by (intros i Hi Hlt; apply Hasc; lia).
  destruct n as [| n]; simpl; [reflexivity |].
  rewrite (Hasc a) by lia. reflexivity.
Qed.

Lemma Sorted_adjacent (dates : list string) :
  Sorted date_le dates ->
  forall i, S i < length dates ->
    String.leb (nth i dates EmptyString) (nth (S i) dates EmptyString) = true.
Proof.
  induction 1 as [| d dates Hsorted IH Hhd]; intros i Hi; simpl in Hi; [lia |].
  destruct i as [| i].
  - destruct Hhd as [| d' dates' Hle]; simpl in *; [lia | exact Hle].
  - simpl. apply IH. lia.
Qed.

Lemma sort_idx_of_sorted (self : futuresContractStrategy.t) :
  Sorted date_le (futuresContractStrategy.contract_date self) ->
  futuresContractStrategy.sort_idx_for_contracts self
  = seq 0 (length (futuresContractStrategy.contract_date self)).
Proof.
  intros Hsorted. unfold futuresContractStrategy.sort_idx_for_contracts.
  apply insertion_of_ascending. intros i _ Hi. by apply Sorted_adjacent.
Qed.

Lemma take_with_idx_seq {A : Type} (d : A) (l : list A) (n : nat) :
  length l = n -> tradeQuantity.take_with_idx l (seq 0 n) = inr l.
Proof.
  intros <-.
  destruct (take_with_idx_returns l (seq 0 (length l))) as [l' Hl'].
  { apply List.Forall_forall. intros k Hk. apply in_seq in Hk. lia. }
  rewrite Hl'. f_equal.
  rewrite (take_with_idx_map _ _ _ Hl' d). apply map_nth_seq.
Qed.

Section SortedLegs.

Context `{BO : base_orders}.

Import brokerOrderKeyArguments.

(** X13: the sort pass is idempotent: applied to a bundle it returned,
    it returns that bundle again, the legs being in ascending date order
    and trade and fill of their length. *)
Theorem sort_pass_is_idempotent (self sorted : t tradeQuantity.t) :
  sort_inputs_by_contract_date_order self = inr sorted ->
  sort_inputs_by_contract_date_order sorted = inr sorted.
Proof.
  intros Hsort.
  destruct (sort_pass_one_permutation _ _ Hsort)
    as (_ & Hlt & Hlf & Hll & _ & _ & Hsorted).
  unfold legs in *.
  unfold sort_inputs_by_contract_date_order,
    futuresContractStrategy.sort_contracts_with_idx, tradeQuantity.sort_with_idx.
  rewrite (sort_idx_of_sorted _ Hsorted).
  rewrite (take_with_idx_seq 0%Z (trade sorted)) by congruence.
  rewrite (take_with_idx_seq 0%Z (fill sorted)) by congruence.
  rewrite (take_with_idx_seq EmptyString
             (futuresContractStrategy.contract_date (tradeable_object sorted)))
    by reflexivity.
  simpl. destruct sorted as [[s i dates] tr fl fp lfp mp sp op]. reflexivity.
Qed.

End SortedLegs.

Lemma sort_pass_idempotent_witness :
  exists sorted,
    sort_inputs_by_contract_date_order bundle_spread = inr sorted
    /\ brokerOrderKeyArguments.trade sorted = [(-6)%Z; 6%Z]
    /\ sort_inputs_by_contract_date_order sorted = inr sorted.
Proof.
  eexists. split; [vm_compute; reflexivity |]. split; [reflexivity |].
  apply (sort_pass_is_idempotent bundle_spread). vm_compute. reflexivity.
Defined.

(** ** What [from_dict] restores *)

Section Restore.

Context `{BO : base_orders}.

Lemma from_dict_inr_inv d order :
  brokerOrder.from_dict d = inr order ->
  exists trade key fill filled_price fill_datetime locked order_id parent
         children active rest,
    d !! "trade" = Some trade /\ d !! "key" = Some key
    /\ d !! "fill" = Some fill /\ d !! "filled_price" = Some filled_price
    /\ d !! "fill_datetime" = Some fill_datetime /\ d !! "locked" = Some locked
    /\ d !! "order_id" = Some order_id /\ d !! "parent" = Some parent
    /\ d !! "children" = Some children /\ d !! "active" = Some active
    /\ (forall name, name ∉ required_keys -> name <> "order_type" ->
          rest !! name = d !! name)
    /\ brokerOrder.init [key; trade]
         (<["fill" := fill]>
          (<["locked" := locked]>
           (<["order_id" := none_to_object order_id no_order_id]>
            (<["parent" := none_to_object parent no_parent]>
             (<["children" := none_to_object children no_children]>
              (<["active" := active]>
               (<["filled_price" := filled_price]>
                (<["fill_datetime" := fill_datetime]>
                 (<["order_type" := brokerOrderType (kwarg d "order_type" PyNone)]>
                  rest)))))))))
       = inr order.
Proof.
  unfold brokerOrder.from_dict. intros H.
  repeat lazymatch type of H with
  | bind (pop ?k ?m) _ = inr _ =>
      let Hp := fresh "Hp" in
      apply bind_inr in H as ([? ?] & Hp & H);
      apply pop_inr in Hp as [Hp ->]
  end.
  unfold pop_default in H. simpl in H.
  rewrite !lookup_delete_ne in * by done.
  unfold kwarg in H at 1. rewrite !lookup_delete_ne in H by done.
  do 10 eexists. eexists.
  repeat (split; [eassumption |]).
  split; [| exact H].
  intros name Hname Hty.
  assert (Hne : forall key, key ∈ required_keys -> key <> name)
    by (intros key Hkey ->; by apply Hname).
  rewrite !lookup_delete_ne;
    first [ reflexivity | exact Hty
          | (by apply not_eq_sym) | apply Hne; unfold required_keys; in_list ].
Qed.

(** X15: an order read back by [from_dict] holds the persisted entries
    of the dictionary: the lock, the active flag and the fill timestamp
    as stored, and the broker entries (algo, comment, limit price,
    submit time, broker, account, client id, permanent id, temporary id,
    commission, roll and manual-fill flags) as stored, or the
    constructor's default where the dictionary has no such entry. *)
Theorem from_dict_restores_persisted_entries
    (d : gmap string pyval) (order : Order.t) :
  brokerOrder.from_dict d = inr order ->
  d !! "locked" = Some (Order.locked order)
  /\ d !! "active" = Some (Order.active order)
  /\ d !! "fill_datetime" = Some (Order.fill_datetime order)
  /\ brokerOrder.algo_used order = ret (kwarg d "algo_used" (PyStr ""))
  /\ brokerOrder.algo_comment order = ret (kwarg d "algo_comment" (PyStr ""))
  /\ brokerOrder.limit_price order = ret (kwarg d "limit_price" PyNone)
  /\ brokerOrder.submit_datetime order = ret (kwarg d "submit_datetime" PyNone)
  /\ brokerOrder.broker order = ret (kwarg d "broker" (PyStr ""))
  /\ brokerOrder.broker_account order = ret (kwarg d "broker_account" (PyStr ""))
  /\ brokerOrder.broker_clientid order = ret (kwarg d "broker_clientid" (PyStr ""))
  /\ brokerOrder.broker_permid order = ret (kwarg d "broker_permid" (PyStr ""))
  /\ brokerOrder.broker_tempid order = ret (kwarg d "broker_tempid" (PyStr ""))
  /\ brokerOrder.commission order = ret (kwarg d "commission" (PyFloat 0.0))
  /\ Order.order_info_get "roll_order" order
     = ret (kwarg d "roll_order" (PyBool false))
  /\ Order.order_info_get "manual_fill" order
     = ret (kwarg d "manual_fill" (PyBool false)).
Proof.
  intros H.
  apply from_dict_inr_inv in H
    as (tr & key & fl & fp & fdt & lk & oid & par & chi & act & rest
        & _ & _ & _ & _ & Hfdt & Hlk & _ & _ & _ & Hact & Hrest & Hinit).
  destruct (init_inr_keywords _ _ _ Hinit)
    as (K1 & K2 & K3 & K4 & K5 & K6 & K7 & K8 & K9 & K10 & K11 & K12 & K13 & K14 & K15).
  assert (Hkw : forall name dflt,
            name ∉ required_keys -> name <> "order_type" ->
            kwarg
              (<["fill" := fl]>
               (<["locked" := lk]>
                (<["order_id" := none_to_object oid no_order_id]>
                 (<["parent" := none_to_object par no_parent]>
                  (<["children" := none_to_object chi no_children]>
                   (<["active" := act]>
                    (<["filled_price" := fp]>
                     (<["fill_datetime" := fdt]>
                      (<["order_type" := brokerOrderType (kwarg d "order_type" PyNone)]>
                       rest))))))))) name dflt
            = kwarg d name dflt).
  { intros name dflt Hname Hty. unfold kwarg at 1 3.
    assert (Hne : forall key, key ∈ required_keys -> key <> name)
      by (intros k Hk ->; by apply Hname).
    rewrite !lookup_insert_ne;
      first [ by rewrite Hrest | (by apply not_eq_sym)
            | apply Hne; unfold required_keys; in_list ]. }
  assert (Hout : forall name,
            (name =? "trade")%string || (name =? "key")%string
            || (name =? "fill")%string || (name =? "filled_price")%string
            || (name =? "fill_datetime")%string || (name =? "locked")%string
            || (name =? "order_id")%string || (name =? "parent")%string
            || (name =? "children")%string || (name =? "active")%string = false ->
            name ∉ required_keys).
  { intros name Hb Hin. unfold required_keys in Hin.
    repeat (apply elem_of_cons in Hin as [-> | Hin]; [discriminate Hb |]).
    by apply elem_of_nil in Hin. }
  unfold kwarg in K1, K2, K3.
  rewrite !lookup_insert_ne, lookup_insert_eq in K1 by done.
  rewrite !lookup_insert_ne, lookup_insert_eq in K2 by done.
  rewrite !lookup_insert_ne, lookup_insert_eq in K3 by done.
  rewrite Hkw in K4, K5, K6, K7, K8, K9, K10, K11, K12, K13, K14, K15
    by first [ (apply Hout; reflexivity) | discriminate ].
  rewrite K1, K2, K3.
  repeat (split; [assumption |]). assumption.
Qed.

End Restore.

Lemma from_dict_restores_witness :
  brokerOrder.from_dict (BO := spec_base_orders) dict_A
  = inr (one_leg_order [10%Z] [0%Z] PyNone PyNone (PyFloat 2.3) (PyStr "")
           (PyStr "Passive") (PyList []))
  /\ brokerOrder.commission
       (one_leg_order [10%Z] [0%Z] PyNone PyNone (PyFloat 2.3) (PyStr "")
          (PyStr "Passive") (PyList []))
     = ret (kwarg dict_A "commission" (PyFloat 0.0)).
Proof.
  assert (H : brokerOrder.from_dict (BO := spec_base_orders) dict_A
              = inr (one_leg_order [10%Z] [0%Z] PyNone PyNone (PyFloat 2.3) (PyStr "")
                       (PyStr "Passive") (PyList [])))
    by (vm_compute; reflexivity).
  split; [exact H |].
  destruct (from_dict_restores_persisted_entries (BO := spec_base_orders) _ _ H)
    as (_ & _ & _ & _ & _ & _ & _ & _ & _ & _ & _ & _ & Hcomm & _).
  exact Hcomm.
Defined.
